(** * Appointment scheduler: storage layer and appointment routes

    A shallow embedding of the scheduling core of the appointment
    scheduler: the tables of [shared/schema.ts], the [DatabaseStorage]
    methods that read and write them, and the Express handlers of
    [server/routes.ts] that book, modify and list appointments.

    Conventions of the embedding.
    - A [timestamp] column is a [Z] (milliseconds since the epoch); a
      [serial] column is a [Z] drawn from a per-table sequence that starts
      at 1; a nullable column is an [option]; a [jsonb] column is a [Json]
      tree that the server stores and returns without looking inside.
    - A table is the list of its rows in insertion order.
    - The body of [POST /api/appointments] is a record of JavaScript
      values that [insertAppointmentSchema.parse] accepts or refuses; the
      body of a [PUT] has the type the storage signature declares
      ([Partial<InsertAppointment>]): a [Date] is always truthy, a number
      is truthy unless it is 0.
    - [postAppointment], [putAppointment] and [handle] are handlers run
      from start to end on one database value, and [Reachable] are the
      states reached by running them one after the other.  The conflict
      query and the write are separate [await]s, not wrapped in a
      transaction: [Interleaved] lets booking handlers be suspended
      between the two.  The caller is taken to be authenticated.
    - [and(c1, c2, c3)] of the query builder joins its conditions with
      [and], dropping an [undefined] one, and does not put parentheses
      around a raw [sql] fragment; in SQL [AND] binds tighter than
      [OR]. *)

From Stdlib Require Import ZArith List String Bool Lia.
From Stdlib Require Import Sorting.Sorted Sorting.Permutation.
Import ListNotations.
Open Scope Z_scope.
Set Warnings "-register-all".

(** ** Columns *)

Definition Timestamp := Z.

Inductive Json : Type :=
| JNull
| JBool (b : bool)
| JNum (n : Z)
| JStr (s : string)
| JArr (xs : list Json)
| JObj (fields : list (string * Json)).

(** JavaScript truthiness of the values the handlers test. *)
Definition truthyNum (o : option Z) : bool :=
  match o with
  | Some n => negb (n =? 0)
  | None => false
  end.

Definition truthyDate (o : option Timestamp) : bool :=
  match o with
  | Some _ => true
  | None => false
  end.

(** [a || b] where [a] is an optional number and [b] a number. *)
Definition orNum (a : option Z) (b : Z) : Z :=
  match a with
  | Some n => if n =? 0 then b else n
  | None => b
  end.

(** [a || b] where [a] is an optional [Date]. *)
Definition orDate (a : option Timestamp) (b : Timestamp) : Timestamp :=
  match a with
  | Some t => t
  | None => b
  end.

(** ** Tables of [shared/schema.ts] *)

Record Staff := mkStaff {
  staff_id : Z;
  staff_userId : option Z;
  staff_firstName : string;
  staff_lastName : string;
  staff_email : string;
  staff_phone : option string;
  staff_role : string;
  staff_isActive : option bool;
  staff_availability : option Json;
  staff_createdAt : option Timestamp;
  staff_updatedAt : option Timestamp
}.

Record Patient := mkPatient {
  patient_id : Z;
  patient_firstName : string;
  patient_lastName : string;
  patient_email : option string;
  patient_phone : option string;
  patient_dateOfBirth : option Timestamp;
  patient_address : option string;
  patient_insuranceInfo : option Json;
  patient_medicalHistory : option string;
  patient_isActive : option bool;
  patient_createdAt : option Timestamp;
  patient_updatedAt : option Timestamp
}.

Record Service := mkService {
  service_id : Z;
  service_name : string;
  service_description : option string;
  service_categoryId : option Z;
  service_duration : Z;
  service_capacity : option Z;
  service_price : option string;
  service_isGroup : option bool;
  service_isActive : option bool;
  service_rules : option Json;
  service_createdAt : option Timestamp;
  service_updatedAt : option Timestamp
}.

Record Appointment := mkAppointment {
  id : Z;
  patientId : Z;
  staffId : Z;
  serviceId : Z;
  startTime : Timestamp;
  endTime : Timestamp;
  status : string;
  notes : option string;
  recurringRuleId : option Z;
  createdAt : option Timestamp;
  updatedAt : option Timestamp
}.

Record RecurringAppointmentRule := mkRecurringRule {
  rule_id : Z;
  rule_frequency : string;
  rule_interval : option Z;
  rule_startDate : Timestamp;
  rule_endDate : option Timestamp;
  rule_daysOfWeek : option Json;
  rule_dayOfMonth : option Z;
  rule_isActive : option bool;
  rule_createdAt : option Timestamp
}.

Record StaffAvailabilityExclusion := mkExclusion {
  excl_id : Z;
  excl_staffId : Z;
  excl_startTime : Timestamp;
  excl_endTime : Timestamp;
  excl_reason : option string;
  excl_createdAt : option Timestamp
}.

(** [InsertAppointment]: the appointment columns without [id],
    [createdAt] and [updatedAt]; columns with a default or nullable are
    optional. *)
Record InsertAppointment := mkInsertAppointment {
  ins_patientId : Z;
  ins_staffId : Z;
  ins_serviceId : Z;
  ins_startTime : Timestamp;
  ins_endTime : Timestamp;
  ins_status : option string;
  ins_notes : option (option string);
  ins_recurringRuleId : option (option Z)
}.

(** [Partial<InsertAppointment>]: [None] is an absent key; for a nullable
    column [Some None] is an explicit [null]. *)
Record PartialAppointment := mkPartialAppointment {
  upd_patientId : option Z;
  upd_staffId : option Z;
  upd_serviceId : option Z;
  upd_startTime : option Timestamp;
  upd_endTime : option Timestamp;
  upd_status : option string;
  upd_notes : option (option string);
  upd_recurringRuleId : option (option Z)
}.

(** The database: the tables the scheduling code touches and the sequence
    behind [appointments.id]. *)
Record Db := mkDb {
  staff : list Staff;
  patients : list Patient;
  services : list Service;
  recurringAppointmentRules : list RecurringAppointmentRule;
  staffAvailabilityExclusions : list StaffAvailabilityExclusion;
  appointments : list Appointment;
  appointments_id_seq : Z
}.

Definition with_appointments (db : Db) (l : list Appointment) (seq : Z) : Db :=
  mkDb (staff db) (patients db) (services db)
       (recurringAppointmentRules db) (staffAvailabilityExclusions db)
       l seq.

Definition with_staff (db : Db) (l : list Staff) : Db :=
  mkDb l (patients db) (services db)
       (recurringAppointmentRules db) (staffAvailabilityExclusions db)
       (appointments db) (appointments_id_seq db).

Definition with_patients (db : Db) (l : list Patient) : Db :=
  mkDb (staff db) l (services db)
       (recurringAppointmentRules db) (staffAvailabilityExclusions db)
       (appointments db) (appointments_id_seq db).

Definition with_services (db : Db) (l : list Service) : Db :=
  mkDb (staff db) (patients db) l
       (recurringAppointmentRules db) (staffAvailabilityExclusions db)
       (appointments db) (appointments_id_seq db).

(** ** Ordering of query results

    [orderBy] is modelled by an insertion sort on the ordering column; the
    order of rows with equal keys, which SQL leaves open, is whatever the
    sort gives, and no statement below depends on it. *)

Section OrderBy.
Context {A : Type} (le : A -> A -> bool).

Fixpoint insertBy (x : A) (l : list A) : list A :=
  match l with
  | [] => [x]
  | y :: tl => if le x y then x :: y :: tl else y :: insertBy x tl
  end.

Fixpoint orderBy (l : list A) : list A :=
  match l with
  | [] => []
  | x :: tl => insertBy x (orderBy tl)
  end.

End OrderBy.

Definition asc {A : Type} (key : A -> Z) (a b : A) : bool := key a <=? key b.
Definition desc {A : Type} (key : A -> Z) (a b : A) : bool := key b <=? key a.
Definition ascText {A : Type} (key : A -> string) (a b : A) : bool :=
  String.leb (key a) (key b).

(** ** Foreign keys *)

Definition hasStaff (db : Db) (i : Z) : bool :=
  existsb (fun s => staff_id s =? i) (staff db).
Definition hasPatient (db : Db) (i : Z) : bool :=
  existsb (fun p => patient_id p =? i) (patients db).
Definition hasService (db : Db) (i : Z) : bool :=
  existsb (fun s => service_id s =? i) (services db).
Definition hasRule (db : Db) (r : option Z) : bool :=
  match r with
  | None => true
  | Some i => existsb (fun x => rule_id x =? i) (recurringAppointmentRules db)
  end.

(** The references of an appointment row all resolve. *)
Definition referencesOk (db : Db) (a : Appointment) : bool :=
  hasPatient db (patientId a) && hasStaff db (staffId a)
  && hasService db (serviceId a) && hasRule db (recurringRuleId a).

(** ** [DatabaseStorage]: appointments *)

Definition getAppointment (db : Db) (i : Z) : option Appointment :=
  find (fun a => id a =? i) (appointments db).

Definition getAllAppointments (db : Db) : list Appointment :=
  orderBy (desc startTime) (appointments db).

Definition getAppointmentsByDateRange (db : Db) (startDate endDate : Timestamp)
  : list Appointment :=
  orderBy (asc startTime)
    (filter (fun a => (startDate <=? startTime a) && (startTime a <=? endDate))
            (appointments db)).

Definition getAppointmentsByStaff (db : Db) (s : Z) : list Appointment :=
  orderBy (desc startTime)
    (filter (fun a => staffId a =? s) (appointments db)).

Definition getAppointmentsByPatient (db : Db) (p : Z) : list Appointment :=
  orderBy (desc startTime)
    (filter (fun a => patientId a =? p) (appointments db)).

(** The row an insert builds: [id] from the sequence, the defaults of the
    schema for absent columns, both timestamps [defaultNow()]. *)
Definition newAppointment (now : Timestamp) (i : Z) (ins : InsertAppointment)
  : Appointment :=
  {| id := i;
     patientId := ins_patientId ins;
     staffId := ins_staffId ins;
     serviceId := ins_serviceId ins;
     startTime := ins_startTime ins;
     endTime := ins_endTime ins;
     status := match ins_status ins with Some s => s | None => "scheduled"%string end;
     notes := match ins_notes ins with Some n => n | None => None end;
     recurringRuleId :=
       match ins_recurringRuleId ins with Some r => r | None => None end;
     createdAt := Some now;
     updatedAt := Some now |}.

(** [createAppointment]: [None] when the insert throws (a reference does
    not resolve); the sequence value is used up either way. *)
Definition createAppointment (now : Timestamp) (ins : InsertAppointment) (db : Db)
  : option Appointment * Db :=
  let i := appointments_id_seq db in
  let a := newAppointment now i ins in
  if referencesOk db a
  then (Some a, with_appointments db (appointments db ++ [a]) (i + 1))
  else (None, with_appointments db (appointments db) (i + 1)).

Definition orElse {A : Type} (o : option A) (d : A) : A :=
  match o with Some x => x | None => d end.

(** [.set({ ...updateAppointment, updatedAt: new Date() })] on one row. *)
Definition setAppointment (now : Timestamp) (upd : PartialAppointment)
  (a : Appointment) : Appointment :=
  {| id := id a;
     patientId := orElse (upd_patientId upd) (patientId a);
     staffId := orElse (upd_staffId upd) (staffId a);
     serviceId := orElse (upd_serviceId upd) (serviceId a);
     startTime := orElse (upd_startTime upd) (startTime a);
     endTime := orElse (upd_endTime upd) (endTime a);
     status := orElse (upd_status upd) (status a);
     notes := orElse (upd_notes upd) (notes a);
     recurringRuleId := orElse (upd_recurringRuleId upd) (recurringRuleId a);
     createdAt := createdAt a;
     updatedAt := Some now |}.

(** A reference is checked on update when its column changes. *)
Definition optZ_eqb (a b : option Z) : bool :=
  match a, b with
  | Some x, Some y => x =? y
  | None, None => true
  | _, _ => false
  end.

Definition referencesOkOnUpdate (db : Db) (old new : Appointment) : bool :=
  ((patientId new =? patientId old) || hasPatient db (patientId new))
  && ((staffId new =? staffId old) || hasStaff db (staffId new))
  && ((serviceId new =? serviceId old) || hasService db (serviceId new))
  && (optZ_eqb (recurringRuleId new) (recurringRuleId old)
      || hasRule db (recurringRuleId new)).

Definition replaceAppointment (i : Z) (new : Appointment) (l : list Appointment)
  : list Appointment :=
  map (fun a => if id a =? i then new else a) l.

(** [updateAppointment]: [None] when the update throws, [Some None] when no
    row has the id (the handler then answers with [undefined]). *)
Definition updateAppointment (now : Timestamp) (i : Z) (upd : PartialAppointment)
  (db : Db) : option (option Appointment) * Db :=
  match getAppointment db i with
  | None => (Some None, db)
  | Some old =>
      let new := setAppointment now upd old in
      if referencesOkOnUpdate db old new
      then (Some (Some new),
            with_appointments db (replaceAppointment i new (appointments db))
                              (appointments_id_seq db))
      else (None, db)
  end.

Definition deleteAppointment (i : Z) (db : Db) : Db :=
  with_appointments db (filter (fun a => negb (id a =? i)) (appointments db))
                    (appointments_id_seq db).

(** The [where] clause of [checkAppointmentConflicts] on one row.  The
    three arguments of [and] are raw [sql] fragments, joined as
    [(staff_id = s OR patient_id = p and start_time < en AND end_time > st
    and id != x)]: the staff test stands alone on the left of [OR], and
    the interval and the excluded id only qualify the patient test. *)
Definition conflictsWith (s p : Z) (st en : Timestamp) (excludeId : option Z)
  (a : Appointment) : bool :=
  (staffId a =? s)
  || ((patientId a =? p)
      && ((startTime a <? en) && (endTime a >? st))
      && (if truthyNum excludeId
          then match excludeId with Some x => negb (id a =? x) | None => true end
          else true)).

Definition checkAppointmentConflicts (db : Db) (s p : Z) (st en : Timestamp)
  (excludeId : option Z) : bool :=
  let conflicts := filter (conflictsWith s p st en excludeId) (appointments db) in
  (0 <? Z.of_nat (List.length conflicts)).

(** ** [DatabaseStorage]: staff, patients, services, exclusions *)

Definition isTrue (o : option bool) : bool :=
  match o with Some true => true | _ => false end.

Definition getStaff (db : Db) (i : Z) : option Staff :=
  find (fun s => staff_id s =? i) (staff db).

Definition getAllStaff (db : Db) : list Staff :=
  orderBy (ascText staff_firstName)
    (filter (fun s => isTrue (staff_isActive s)) (staff db)).

Definition deactivateStaff (s : Staff) : Staff :=
  mkStaff (staff_id s) (staff_userId s) (staff_firstName s) (staff_lastName s)
          (staff_email s) (staff_phone s) (staff_role s) (Some false)
          (staff_availability s) (staff_createdAt s) (staff_updatedAt s).

Definition deleteStaff (i : Z) (db : Db) : Db :=
  with_staff db
    (map (fun s => if staff_id s =? i then deactivateStaff s else s) (staff db)).

Definition getPatient (db : Db) (i : Z) : option Patient :=
  find (fun p => patient_id p =? i) (patients db).

Definition getAllPatients (db : Db) : list Patient :=
  orderBy (ascText patient_firstName)
    (filter (fun p => isTrue (patient_isActive p)) (patients db)).

Definition deactivatePatient (p : Patient) : Patient :=
  mkPatient (patient_id p) (patient_firstName p) (patient_lastName p)
            (patient_email p) (patient_phone p) (patient_dateOfBirth p)
            (patient_address p) (patient_insuranceInfo p)
            (patient_medicalHistory p) (Some false)
            (patient_createdAt p) (patient_updatedAt p).

Definition deletePatient (i : Z) (db : Db) : Db :=
  with_patients db
    (map (fun p => if patient_id p =? i then deactivatePatient p else p)
         (patients db)).

Definition getService (db : Db) (i : Z) : option Service :=
  find (fun s => service_id s =? i) (services db).

Definition getAllServices (db : Db) : list Service :=
  orderBy (ascText service_name)
    (filter (fun s => isTrue (service_isActive s)) (services db)).

Definition deactivateService (s : Service) : Service :=
  mkService (service_id s) (service_name s) (service_description s)
            (service_categoryId s) (service_duration s) (service_capacity s)
            (service_price s) (service_isGroup s) (Some false)
            (service_rules s) (service_createdAt s) (service_updatedAt s).

Definition deleteService (i : Z) (db : Db) : Db :=
  with_services db
    (map (fun s => if service_id s =? i then deactivateService s else s)
         (services db)).

Definition getStaffExclusions (db : Db) (s : Z) : list StaffAvailabilityExclusion :=
  orderBy (asc excl_startTime)
    (filter (fun x => excl_staffId x =? s) (staffAvailabilityExclusions db)).

(** ** Handlers of [server/routes.ts] *)

Inductive Response : Type :=
| Created (a : Appointment)            (* 201 *)
| Ok (a : option Appointment)          (* 200, [res.json(appointment)] *)
| OkList (l : list Appointment)        (* 200, [res.json(appointments)] *)
| NoContent                            (* 204 *)
| Conflict                             (* 409 *)
| BadRequest.                          (* 400 *)

(** [POST /api/appointments], from the conflict check on, for a body that
    [insertAppointmentSchema.parse] has accepted. *)
Definition postAppointment (now : Timestamp) (body : InsertAppointment) (db : Db)
  : Response * Db :=
  let hasConflict :=
    checkAppointmentConflicts db (ins_staffId body) (ins_patientId body)
      (ins_startTime body) (ins_endTime body) None in
  if hasConflict then (Conflict, db)
  else match createAppointment now body db with
       | (Some a, db') => (Created a, db')
       | (None, db') => (BadRequest, db')
       end.

(** A value found under a key of [req.body]. *)
Inductive JsValue : Type :=
| JsNull
| JsBool (b : bool)
| JsInt (n : Z)                  (* a number with an integer value *)
| JsNumber                       (* any other number *)
| JsString (s : string)
| JsDate (t : option Timestamp)  (* a [Date]; [None] is an invalid one *)
| JsObject.                      (* an array or an object *)

(** The keys of [req.body] the schema looks at; [None] is an absent key.
    Other keys are dropped by the parse. *)
Record RawAppointment := mkRawAppointment {
  raw_patientId : option JsValue;
  raw_staffId : option JsValue;
  raw_serviceId : option JsValue;
  raw_startTime : option JsValue;
  raw_endTime : option JsValue;
  raw_status : option JsValue;
  raw_notes : option JsValue;
  raw_recurringRuleId : option JsValue
}.

(** An [integer] column holds 32 bits. *)
Definition int4 (n : Z) : bool := (-2147483648 <=? n) && (n <=? 2147483647).

(** The checks [createInsertSchema] derives from the column types: an
    [integer] column wants an integer number, a [timestamp] column a valid
    [Date] (a string is refused), a [text] column a string; a column with
    a default may be absent, a nullable one may also be [null].  An
    integer that does not fit the column is refused here: whether the
    schema or the database refuses it, the answer is 400 before any row
    or sequence is touched. *)
Definition wantInt (v : option JsValue) : option Z :=
  match v with
  | Some (JsInt n) => if int4 n then Some n else None
  | _ => None
  end.

Definition wantDate (v : option JsValue) : option Timestamp :=
  match v with
  | Some (JsDate (Some t)) => Some t
  | _ => None
  end.

Definition mayString (v : option JsValue) : option (option string) :=
  match v with
  | None => Some None
  | Some (JsString s) => Some (Some s)
  | _ => None
  end.

Definition mayNullString (v : option JsValue) : option (option (option string)) :=
  match v with
  | None => Some None
  | Some JsNull => Some (Some None)
  | Some (JsString s) => Some (Some (Some s))
  | _ => None
  end.

Definition mayNullInt (v : option JsValue) : option (option (option Z)) :=
  match v with
  | None => Some None
  | Some JsNull => Some (Some None)
  | Some (JsInt n) => if int4 n then Some (Some (Some n)) else None
  | _ => None
  end.

(** [insertAppointmentSchema.parse(req.body)]: [None] when it throws. *)
Definition insertAppointmentSchema (raw : RawAppointment)
  : option InsertAppointment :=
  match wantInt (raw_patientId raw), wantInt (raw_staffId raw),
        wantInt (raw_serviceId raw), wantDate (raw_startTime raw),
        wantDate (raw_endTime raw), mayString (raw_status raw),
        mayNullString (raw_notes raw), mayNullInt (raw_recurringRuleId raw) with
  | Some p, Some s, Some v, Some st, Some en, Some status, Some n, Some r =>
      Some (mkInsertAppointment p s v st en status n r)
  | _, _, _, _, _, _, _, _ => None
  end.

(** [POST /api/appointments], the whole handler: a body the schema
    refuses is answered 400 before any query. *)
Definition postAppointmentRoute (now : Timestamp) (raw : RawAppointment) (db : Db)
  : Response * Db :=
  match insertAppointmentSchema raw with
  | None => (BadRequest, db)
  | Some body => postAppointment now body db
  end.

(** The body a caller passes for a well-typed appointment. *)
Definition sent (body : InsertAppointment) : RawAppointment :=
  {| raw_patientId := Some (JsInt (ins_patientId body));
     raw_staffId := Some (JsInt (ins_staffId body));
     raw_serviceId := Some (JsInt (ins_serviceId body));
     raw_startTime := Some (JsDate (Some (ins_startTime body)));
     raw_endTime := Some (JsDate (Some (ins_endTime body)));
     raw_status := option_map JsString (ins_status body);
     raw_notes :=
       option_map (fun n => match n with Some x => JsString x | None => JsNull end)
                  (ins_notes body);
     raw_recurringRuleId :=
       option_map (fun r => match r with Some x => JsInt x | None => JsNull end)
                  (ins_recurringRuleId body) |}.

(** The test that opens the conflict check of the [PUT] handler. *)
Definition changesSlot (body : PartialAppointment) : bool :=
  truthyDate (upd_startTime body) || truthyDate (upd_endTime body)
  || truthyNum (upd_staffId body) || truthyNum (upd_patientId body).

(** [PUT /api/appointments/:id] *)
Definition putAppointment (now : Timestamp) (i : Z) (body : PartialAppointment)
  (db : Db) : Response * Db :=
  let hasConflict :=
    if changesSlot body then
      match getAppointment db i with
      | Some existing =>
          checkAppointmentConflicts db
            (orNum (upd_staffId body) (staffId existing))
            (orNum (upd_patientId body) (patientId existing))
            (orDate (upd_startTime body) (startTime existing))
            (orDate (upd_endTime body) (endTime existing))
            (Some i)
      | None => false
      end
    else false in
  if hasConflict then (Conflict, db)
  else match updateAppointment now i body db with
       | (Some a, db') => (Ok a, db')
       | (None, db') => (BadRequest, db')
       end.

(** [DELETE /api/appointments/:id] *)
Definition deleteAppointmentRoute (i : Z) (db : Db) : Response * Db :=
  (NoContent, deleteAppointment i db).

(** The query string of [GET /api/appointments]: a parameter is [Some] when
    it is present and not empty, already parsed. *)
Record AppointmentQuery := mkQuery {
  q_startDate : option Timestamp;
  q_endDate : option Timestamp;
  q_staffId : option Z;
  q_patientId : option Z
}.

(** [GET /api/appointments] *)
Definition getAppointments (q : AppointmentQuery) (db : Db) : list Appointment :=
  match q_startDate q, q_endDate q with
  | Some startDate, Some endDate => getAppointmentsByDateRange db startDate endDate
  | _, _ =>
      match q_staffId q with
      | Some s => getAppointmentsByStaff db s
      | None =>
          match q_patientId q with
          | Some p => getAppointmentsByPatient db p
          | None => getAllAppointments db
          end
      end
  end.

Record StaffAvailability := mkStaffAvailability {
  availability : option Json;
  exclusions : list StaffAvailabilityExclusion;
  existingAppointments : list Appointment
}.

Definition dayMs : Z := 86400000.

(** [GET /api/staff/:id/availability]: [None] is the 404 answer.  The day
    after [date] is taken 24 hours later. *)
Definition getStaffAvailability (i : Z) (date : Timestamp) (db : Db)
  : option StaffAvailability :=
  match getStaff db i with
  | None => None
  | Some s =>
      let existing := getAppointmentsByDateRange db date (date + dayMs) in
      Some {| availability := staff_availability s;
              exclusions := getStaffExclusions db i;
              existingAppointments := filter (fun a => staffId a =? i) existing |}
  end.

(** ** The booking form of the client ([BookingModal.onSubmit]) *)

Record BookingForm := mkBookingForm {
  form_patientId : Z;
  form_serviceId : Z;
  form_staffId : Z;
  form_start : Timestamp;          (* [new Date(`${date}T${time}`)] *)
  form_notes : option string
}.

(** [(service?.duration || 60)] *)
Definition durationOr60 (service : option Service) : Z :=
  match service with
  | Some s => if service_duration s =? 0 then 60 else service_duration s
  | None => 60
  end.

(** [onSubmit] gives the appointment the form asks for, with the start and
    end it computes as [Date]s; [onSubmitRequest] below is the body it
    puts on the wire. *)
Definition onSubmit (servicesList : list Service) (data : BookingForm)
  : InsertAppointment :=
  let start := form_start data in
  let service := find (fun s => service_id s =? form_serviceId data) servicesList in
  let finish := start + durationOr60 service * 60000 in
  {| ins_patientId := form_patientId data;
     ins_staffId := form_staffId data;
     ins_serviceId := form_serviceId data;
     ins_startTime := start;
     ins_endTime := finish;
     ins_status := Some "scheduled"%string;
     ins_notes := match form_notes data with Some n => Some (Some n) | None => None end;
     ins_recurringRuleId := None |}.

(** The [appointmentData] object that [onSubmit] hands to the mutation:
    the ids as numbers, the two times as the strings [toISOString()]
    gives, the status [scheduled].  [toISOString] is the library's
    formatter, taken as a parameter. *)
Definition onSubmitRequest (toISOString : Timestamp -> string)
  (servicesList : list Service) (data : BookingForm) : RawAppointment :=
  let body := onSubmit servicesList data in
  {| raw_patientId := Some (JsInt (ins_patientId body));
     raw_staffId := Some (JsInt (ins_staffId body));
     raw_serviceId := Some (JsInt (ins_serviceId body));
     raw_startTime := Some (JsString (toISOString (ins_startTime body)));
     raw_endTime := Some (JsString (toISOString (ins_endTime body)));
     raw_status := Some (JsString "scheduled");
     raw_notes := option_map JsString (form_notes data);
     raw_recurringRuleId := None |}.

(** ** Scheduling vocabulary of the specification *)

(** Half-open intervals [[startTime, endTime)] of two appointments meet. *)
Definition overlaps (a b : Appointment) : Prop :=
  startTime a < endTime b /\ startTime b < endTime a.

Definition isScheduled (a : Appointment) : Prop :=
  status a = "scheduled"%string.



(** Keys of the referenced tables come from [serial] sequences: none is 0. *)
Definition serialKeys (db : Db) : Prop :=
  Forall (fun s => 0 < staff_id s) (staff db)
  /\ Forall (fun p => 0 < patient_id p) (patients db).

(** Requests that write the appointments table. *)
Inductive Request : Type :=
| POST_appointments (body : RawAppointment)
| PUT_appointments (i : Z) (body : PartialAppointment)
| DELETE_appointments (i : Z).

Definition handle (now : Timestamp) (r : Request) (db : Db) : Response * Db :=
  match r with
  | POST_appointments body => postAppointmentRoute now body db
  | PUT_appointments i body => putAppointment now i body db
  | DELETE_appointments i => deleteAppointmentRoute i db
  end.

(** States of the database when requests are handled one at a time: it
    starts with no appointment; each appointment request is handled from
    start to end before the next one, at any clock value; between them the
    other tables may change in any way that keeps their keys serial and
    leaves the appointments alone. *)
Inductive Reachable : Db -> Prop :=
| reach_start db :
    appointments db = [] -> appointments_id_seq db = 1 -> serialKeys db ->
    Reachable db
| reach_request db now r :
    Reachable db -> Reachable (snd (handle now r db))
| reach_other db db' :
    Reachable db ->
    appointments db' = appointments db ->
    appointments_id_seq db' = appointments_id_seq db ->
    serialKeys db' ->
    Reachable db'.

(** The invariant the handlers maintain; it does not look at [status]. *)
Definition sameParty (a b : Appointment) : Prop :=
  staffId a = staffId b \/ patientId a = patientId b.

Record Inv (db : Db) : Prop := mkInv {
  inv_seq : 0 < appointments_id_seq db;
  inv_ids : Forall (fun a => 0 < id a < appointments_id_seq db) (appointments db);
  inv_nodup : NoDup (map id (appointments db));
  inv_refs : Forall (fun a => staffId a <> 0 /\ patientId a <> 0) (appointments db);
  inv_staff : forall a b, In a (appointments db) -> In b (appointments db) ->
                id a <> id b -> staffId a <> staffId b;
  inv_free : forall a b, In a (appointments db) -> In b (appointments db) ->
               id a <> id b -> sameParty a b -> ~ overlaps a b;
  inv_keys : serialKeys db
}.


(** ** A small clinic, used by the examples *)

Definition mkStaffRow (i : Z) (name : string) (avail : option Json) : Staff :=
  mkStaff i None name "Doe" (name ++ "@clinic.test") None "therapist"
          (Some true) avail (Some 0) (Some 0).

Definition mkPatientRow (i : Z) (name : string) : Patient :=
  mkPatient i name "Roe" None None None None None None (Some true) (Some 0) (Some 0).

Definition yoga : Service :=
  mkService 1 "Group yoga" None None 30 (Some 3) None (Some true) (Some true)
            None (Some 0) (Some 0).

Definition holiday : StaffAvailabilityExclusion :=
  mkExclusion 1 1 0 1000000 (Some "holiday"%string) (Some 0).

(** Staff 1 has an empty weekly template and an exclusion over
    [[0, 1000000)]; staff 2 has no template at all. *)
Definition clinic : Db :=
  {| staff := [mkStaffRow 1 "Ann" (Some (JObj [])); mkStaffRow 2 "Bob" None];
     patients := [mkPatientRow 1 "Pia"; mkPatientRow 2 "Quin";
                  mkPatientRow 3 "Rui"; mkPatientRow 4 "Sam"];
     services := [yoga];
     recurringAppointmentRules := [];
     staffAvailabilityExclusions := [holiday];
     appointments := [];
     appointments_id_seq := 1 |}.

Definition booking (p s : Z) (st en : Timestamp) : InsertAppointment :=
  mkInsertAppointment p s 1 st en None None None.

Definition statusOnly (s : string) : PartialAppointment :=
  mkPartialAppointment None None None None None (Some s) None None.

Definition moveTo (st en : Timestamp) : PartialAppointment :=
  mkPartialAppointment None None None (Some st) (Some en) None None None.

Definition changeStaff (s : Z) : PartialAppointment :=
  mkPartialAppointment None (Some s) None None None None None None.

(** Run a list of requests, all at clock value 0, keeping the responses. *)
Fixpoint run (rs : list Request) (db : Db) : list Response * Db :=
  match rs with
  | [] => ([], db)
  | r :: tl =>
      let '(resp, db1) := handle 0 r db in
      let '(resps, db2) := run tl db1 in
      (resp :: resps, db2)
  end.

(** ** Variations of a database, used to state what a handler ignores *)

(** The same rows with the weekly templates rewritten by [g] and the
    exclusions table replaced by [excls]. *)
Definition setAvailability (g : Staff -> option Json) (s : Staff) : Staff :=
  mkStaff (staff_id s) (staff_userId s) (staff_firstName s) (staff_lastName s)
          (staff_email s) (staff_phone s) (staff_role s) (staff_isActive s)
          (g s) (staff_createdAt s) (staff_updatedAt s).

Definition withAvailability (g : Staff -> option Json)
  (excls : list StaffAvailabilityExclusion) (db : Db) : Db :=
  mkDb (map (setAvailability g) (staff db)) (patients db) (services db)
       (recurringAppointmentRules db) excls
       (appointments db) (appointments_id_seq db).

(** The exclusion test of the specification's availability resolver: some
    exclusion of the staff member overlaps [[st, en)]. *)
Definition insideExclusion (db : Db) (s : Z) (st en : Timestamp) : bool :=
  existsb (fun x => (excl_startTime x <? en) && (st <? excl_endTime x))
          (getStaffExclusions db s).

Definition isTerminal (a : Appointment) : Prop :=
  status a = "completed"%string \/ status a = "cancelled"%string
  \/ status a = "no_show"%string.

(** The same rows with every status rewritten by [f]. *)
Definition setStatus (f : Appointment -> string) (a : Appointment) : Appointment :=
  mkAppointment (id a) (patientId a) (staffId a) (serviceId a) (startTime a)
                (endTime a) (f a) (notes a) (recurringRuleId a)
                (createdAt a) (updatedAt a).

Definition withStatuses (f : Appointment -> string) (db : Db) : Db :=
  with_appointments db (map (setStatus f) (appointments db))
                    (appointments_id_seq db).

(** The interval of [a] meets the range from [from] to [to]. *)
Definition intersectsRange (from to : Timestamp) (a : Appointment) : Prop :=
  startTime a < to /\ from < endTime a.

(** [startTime] lies in the closed range, the test the range query makes. *)
Definition startsWithin (from to : Timestamp) (a : Appointment) : bool :=
  (from <=? startTime a) && (startTime a <=? to).

(** ** Soft deletion, field by field *)

Definition staffDeactivated (i : Z) (s s' : Staff) : Prop :=
  staff_id s' = staff_id s /\ staff_userId s' = staff_userId s
  /\ staff_firstName s' = staff_firstName s /\ staff_lastName s' = staff_lastName s
  /\ staff_email s' = staff_email s /\ staff_phone s' = staff_phone s
  /\ staff_role s' = staff_role s /\ staff_availability s' = staff_availability s
  /\ staff_createdAt s' = staff_createdAt s /\ staff_updatedAt s' = staff_updatedAt s
  /\ (staff_id s = i -> staff_isActive s' = Some false)
  /\ (staff_id s <> i -> staff_isActive s' = staff_isActive s).

Definition patientDeactivated (i : Z) (p p' : Patient) : Prop :=
  patient_id p' = patient_id p /\ patient_firstName p' = patient_firstName p
  /\ patient_lastName p' = patient_lastName p /\ patient_email p' = patient_email p
  /\ patient_phone p' = patient_phone p
  /\ patient_dateOfBirth p' = patient_dateOfBirth p
  /\ patient_address p' = patient_address p
  /\ patient_insuranceInfo p' = patient_insuranceInfo p
  /\ patient_medicalHistory p' = patient_medicalHistory p
  /\ patient_createdAt p' = patient_createdAt p
  /\ patient_updatedAt p' = patient_updatedAt p
  /\ (patient_id p = i -> patient_isActive p' = Some false)
  /\ (patient_id p <> i -> patient_isActive p' = patient_isActive p).

Definition serviceDeactivated (i : Z) (s s' : Service) : Prop :=
  service_id s' = service_id s /\ service_name s' = service_name s
  /\ service_description s' = service_description s
  /\ service_categoryId s' = service_categoryId s
  /\ service_duration s' = service_duration s
  /\ service_capacity s' = service_capacity s
  /\ service_price s' = service_price s /\ service_isGroup s' = service_isGroup s
  /\ service_rules s' = service_rules s
  /\ service_createdAt s' = service_createdAt s
  /\ service_updatedAt s' = service_updatedAt s
  /\ (service_id s = i -> service_isActive s' = Some false)
  /\ (service_id s <> i -> service_isActive s' = service_isActive s).

(** Everything but the named table is as before. *)
Definition sameButStaff (db db' : Db) : Prop :=
  patients db' = patients db /\ services db' = services db
  /\ recurringAppointmentRules db' = recurringAppointmentRules db
  /\ staffAvailabilityExclusions db' = staffAvailabilityExclusions db
  /\ appointments db' = appointments db
  /\ appointments_id_seq db' = appointments_id_seq db.

Definition sameButPatients (db db' : Db) : Prop :=
  staff db' = staff db /\ services db' = services db
  /\ recurringAppointmentRules db' = recurringAppointmentRules db
  /\ staffAvailabilityExclusions db' = staffAvailabilityExclusions db
  /\ appointments db' = appointments db
  /\ appointments_id_seq db' = appointments_id_seq db.

Definition sameButServices (db db' : Db) : Prop :=
  staff db' = staff db /\ patients db' = patients db
  /\ recurringAppointmentRules db' = recurringAppointmentRules db
  /\ staffAvailabilityExclusions db' = staffAvailabilityExclusions db
  /\ appointments db' = appointments db
  /\ appointments_id_seq db' = appointments_id_seq db.

(** ** [DatabaseStorage]: creating and updating patients

    The patients table has no unique column and no reference to another
    table, so a typed insert or update cannot throw. *)

Record InsertPatient := mkInsertPatient {
  insp_firstName : string;
  insp_lastName : string;
  insp_email : option (option string);
  insp_phone : option (option string);
  insp_dateOfBirth : option (option Timestamp);
  insp_address : option (option string);
  insp_insuranceInfo : option (option Json);
  insp_medicalHistory : option (option string);
  insp_isActive : option (option bool)
}.

Record PartialPatient := mkPartialPatient {
  updp_firstName : option string;
  updp_lastName : option string;
  updp_email : option (option string);
  updp_phone : option (option string);
  updp_dateOfBirth : option (option Timestamp);
  updp_address : option (option string);
  updp_insuranceInfo : option (option Json);
  updp_medicalHistory : option (option string);
  updp_isActive : option (option bool)
}.

(** The database together with the sequence behind [patients.id]. *)
Record Server := mkServer {
  server_db : Db;
  patients_id_seq : Z
}.

Definition newPatient (now : Timestamp) (i : Z) (ins : InsertPatient) : Patient :=
  {| patient_id := i;
     patient_firstName := insp_firstName ins;
     patient_lastName := insp_lastName ins;
     patient_email := orElse (insp_email ins) None;
     patient_phone := orElse (insp_phone ins) None;
     patient_dateOfBirth := orElse (insp_dateOfBirth ins) None;
     patient_address := orElse (insp_address ins) None;
     patient_insuranceInfo := orElse (insp_insuranceInfo ins) None;
     patient_medicalHistory := orElse (insp_medicalHistory ins) None;
     patient_isActive := orElse (insp_isActive ins) (Some true);
     patient_createdAt := Some now;
     patient_updatedAt := Some now |}.

Definition createPatient (now : Timestamp) (ins : InsertPatient) (sv : Server)
  : Patient * Server :=
  let i := patients_id_seq sv in
  let p := newPatient now i ins in
  (p, mkServer (with_patients (server_db sv) (patients (server_db sv) ++ [p]))
               (i + 1)).

(** [.set({ ...updatePatient, updatedAt: new Date() })] on one row. *)
Definition setPatient (now : Timestamp) (upd : PartialPatient) (p : Patient)
  : Patient :=
  {| patient_id := patient_id p;
     patient_firstName := orElse (updp_firstName upd) (patient_firstName p);
     patient_lastName := orElse (updp_lastName upd) (patient_lastName p);
     patient_email := orElse (updp_email upd) (patient_email p);
     patient_phone := orElse (updp_phone upd) (patient_phone p);
     patient_dateOfBirth := orElse (updp_dateOfBirth upd) (patient_dateOfBirth p);
     patient_address := orElse (updp_address upd) (patient_address p);
     patient_insuranceInfo :=
       orElse (updp_insuranceInfo upd) (patient_insuranceInfo p);
     patient_medicalHistory :=
       orElse (updp_medicalHistory upd) (patient_medicalHistory p);
     patient_isActive := orElse (updp_isActive upd) (patient_isActive p);
     patient_createdAt := patient_createdAt p;
     patient_updatedAt := Some now |}.

(** [updatePatient]: the first updated row, [None] when no row has the id. *)
Definition updatePatient (now : Timestamp) (i : Z) (upd : PartialPatient) (db : Db)
  : option Patient * Db :=
  let rows :=
    map (fun p => if patient_id p =? i then setPatient now upd p else p)
        (patients db) in
  (find (fun p => patient_id p =? i) rows, with_patients db rows).

(** ** Handlers of the patient, staff and service routes *)

Record User := mkUser {
  user_id : Z;
  user_username : string;
  user_email : string;
  user_password : string;
  user_role : string;
  user_firstName : string;
  user_lastName : string;
  user_isActive : option bool;
  user_subscriptionStatus : option string;
  user_subscriptionStartDate : option Timestamp;
  user_subscriptionEndDate : option Timestamp;
  user_stripeCustomerId : option string;
  user_stripeSubscriptionId : option string;
  user_createdAt : option Timestamp;
  user_updatedAt : option Timestamp
}.

(** Answers of the routes below, for a resource of type [A]. *)
Inductive Reply (A : Type) : Type :=
| R201 (a : A)                  (* created *)
| R200 (a : option A)           (* [res.json(row)] *)
| R200List (l : list A)         (* [res.json(rows)] *)
| R204                          (* no content *)
| R403.                         (* forbidden *)

Arguments R201 {A} a.
Arguments R200 {A} a.
Arguments R200List {A} l.
Arguments R204 {A}.
Arguments R403 {A}.

(** [requireRole(roles)] lets the request through. *)
Definition requireRole (roles : list string) (u : User) : bool :=
  existsb (String.eqb (user_role u)) roles.

(** [existingStaff.userId !== req.user.id] *)
Definition ownedBy (u : User) (s : Staff) : bool :=
  match staff_userId s with
  | Some o => o =? user_id u
  | None => false
  end.

(** [GET /api/staff] *)
Definition getStaffRoute (u : User) (db : Db) : Reply Staff :=
  if String.eqb (user_role u) "admin" then R200List (getAllStaff db)
  else if String.eqb (user_role u) "doctor"
       then R200List (filter (ownedBy u) (getAllStaff db))
       else R403.

(** [DELETE /api/staff/:id] *)
Definition deleteStaffRoute (u : User) (i : Z) (db : Db) : Reply Staff * Db :=
  if requireRole ["admin"; "doctor"]%string u then
    if String.eqb (user_role u) "doctor" then
      match getStaff db i with
      | Some existingStaff =>
          if ownedBy u existingStaff then (R204, deleteStaff i db)
          else (R403, db)
      | None => (R403, db)
      end
    else (R204, deleteStaff i db)
  else (R403, db).

(** [DELETE /api/services/:id] *)
Definition deleteServiceRoute (u : User) (i : Z) (db : Db) : Reply Service * Db :=
  if requireRole ["admin"%string] u then (R204, deleteService i db)
  else (R403, db).

(** [GET /api/patients], [POST /api/patients], [PUT /api/patients/:id] and
    [DELETE /api/patients/:id]: any authenticated caller. *)
Definition getPatientsRoute (db : Db) : Reply Patient :=
  R200List (getAllPatients db).

Definition postPatient (now : Timestamp) (body : InsertPatient) (sv : Server)
  : Reply Patient * Server :=
  let '(p, sv') := createPatient now body sv in (R201 p, sv').

Definition putPatient (now : Timestamp) (i : Z) (body : PartialPatient) (db : Db)
  : Reply Patient * Db :=
  let '(p, db') := updatePatient now i body db in (R200 p, db').

Definition deletePatientRoute (i : Z) (db : Db) : Reply Patient * Db :=
  (R204, deletePatient i db).

(** ** [DatabaseStorage]: billing records *)

Record BillingRecord := mkBillingRecord {
  bill_id : Z;
  bill_appointmentId : Z;
  bill_patientId : Z;
  bill_serviceId : Z;
  bill_amount : string;
  bill_billingDate : Timestamp;
  bill_paymentDate : option Timestamp;
  bill_paymentStatus : option string;
  bill_insuranceClaim : option string;
  bill_notes : option string;
  bill_createdAt : option Timestamp
}.

Record BillingFilters := mkBillingFilters {
  f_patientId : option Z;
  f_serviceId : option Z;
  f_startDate : option Timestamp;
  f_endDate : option Timestamp
}.

(** The [conditions] array, applied to one row. *)
Definition billingConditions (f : BillingFilters) (r : BillingRecord) : bool :=
  (if truthyNum (f_patientId f)
   then bill_patientId r =? orElse (f_patientId f) 0 else true)
  && (if truthyNum (f_serviceId f)
      then bill_serviceId r =? orElse (f_serviceId f) 0 else true)
  && (match f_startDate f with
      | Some d => d <=? bill_billingDate r
      | None => true
      end)
  && (match f_endDate f with
      | Some d => bill_billingDate r <=? d
      | None => true
      end).

Definition noBillingCondition (f : BillingFilters) : bool :=
  negb (truthyNum (f_patientId f)) && negb (truthyNum (f_serviceId f))
  && negb (truthyDate (f_startDate f)) && negb (truthyDate (f_endDate f)).

(** [getBillingRecords(filters?)] over the billing table. *)
Definition getBillingRecords (table : list BillingRecord)
  (filters : option BillingFilters) : list BillingRecord :=
  match filters with
  | None => orderBy (desc bill_billingDate) table
  | Some f =>
      if noBillingCondition f then orderBy (desc bill_billingDate) table
      else orderBy (desc bill_billingDate) (filter (billingConditions f) table)
  end.

(** ** Counters of the reports page ([Reports.tsx]) *)

Definition countStatus (s : string) (l : list Appointment) : nat :=
  List.length (filter (fun apt => String.eqb (status apt) s) l).

Definition totalAppointments (l : list Appointment) : nat := List.length l.
Definition completedAppointments := countStatus "completed".
Definition cancelledAppointments := countStatus "cancelled".
Definition noShowAppointments := countStatus "no_show".
Definition scheduledAppointments := countStatus "scheduled".

Definition knownStatus (a : Appointment) : Prop :=
  isScheduled a \/ isTerminal a.

(** A doctor and a practice in which staff member 1 is the doctor's own and
    staff member 2 belongs to another doctor. *)
Definition drHouse : User :=
  mkUser 5 "house" "house@clinic.test" "hash" "doctor" "Greg" "House"
         (Some true) None None None None None (Some 0) (Some 0).

Definition ownStaff : Staff :=
  mkStaff 1 (Some 5) "Ann" "Doe" "ann@clinic.test" None "therapist"
          (Some true) None (Some 0) (Some 0).

Definition foreignStaff : Staff :=
  mkStaff 2 (Some 6) "Bob" "Doe" "bob@clinic.test" None "therapist"
          (Some true) None (Some 0) (Some 0).

Definition practice : Db := with_staff clinic [ownStaff; foreignStaff].

(** The update that sets [isActive] to true and nothing else. *)
Definition reactivate : PartialPatient :=
  mkPartialPatient None None None None None None None None (Some (Some true)).

(** * Properties *)

(** ** [orderBy] *)

Section OrderByFacts.
Context {A : Type} (le : A -> A -> bool).

Lemma insertBy_perm (x : A) (l : list A) :
  Permutation (x :: l) (insertBy le x l).
Proof.
  induction l as [|y tl IH]; simpl.
  - apply Permutation_refl.
  - destruct (le x y).
    + apply Permutation_refl.
    + eapply Permutation_trans; [apply perm_swap|].
      apply perm_skip, IH.
Qed.

Lemma orderBy_perm (l : list A) : Permutation l (orderBy le l).
Proof.
  induction l as [|x tl IH]; simpl.
  - constructor.
  - eapply Permutation_trans; [apply perm_skip, IH|apply insertBy_perm].
Qed.

Lemma orderBy_In (x : A) (l : list A) : In x (orderBy le l) <-> In x l.
Proof.
  split; intro H.
  - eapply Permutation_in; [apply Permutation_sym, orderBy_perm|exact H].
  - eapply Permutation_in; [apply orderBy_perm|exact H].
Qed.

Hypothesis le_total : forall a b, le a b = true \/ le b a = true.

Lemma insertBy_sorted (x : A) (l : list A) :
  Sorted (fun a b => le a b = true) l ->
  Sorted (fun a b => le a b = true) (insertBy le x l).
Proof.
  induction 1 as [|y tl Hs IH Hd]; simpl.
  - repeat constructor.
  - destruct (le x y) eqn:E.
    + constructor; [constructor; assumption|constructor; exact E].
    + constructor; [exact IH|].
      destruct (le_total x y) as [C|C]; [congruence|].
      destruct tl as [|z tl']; simpl.
      * constructor; exact C.
      * destruct (le x z); constructor; [exact C|].
        inversion Hd; assumption.
Qed.

Lemma orderBy_sorted (l : list A) :
  Sorted (fun a b => le a b = true) (orderBy le l).
Proof.
  induction l as [|x tl IH]; simpl.
  - constructor.
  - apply insertBy_sorted, IH.
Qed.

End OrderByFacts.

Lemma asc_total {A : Type} (key : A -> Z) (a b : A) :
  asc key a b = true \/ asc key b a = true.
Proof. unfold asc. destruct (Z.leb_spec (key a) (key b)); [left; reflexivity|right; apply Z.leb_le; lia]. Qed.

Lemma desc_total {A : Type} (key : A -> Z) (a b : A) :
  desc key a b = true \/ desc key b a = true.
Proof. unfold desc. destruct (Z.leb_spec (key b) (key a)); [left; reflexivity|right; apply Z.leb_le; lia]. Qed.

(** ** The conflict query *)

Lemma conflictsWith_spec s p st en ex a :
  conflictsWith s p st en ex a = true <->
  staffId a = s
  \/ (patientId a = p
      /\ (startTime a < en /\ endTime a > st)
      /\ (forall x, ex = Some x -> x <> 0 -> id a <> x)).
Proof.
  unfold conflictsWith.
  rewrite orb_true_iff, !andb_true_iff, !Z.eqb_eq, Z.ltb_lt, Z.gtb_gt.
  assert (E : (if truthyNum ex
               then match ex with Some x => negb (id a =? x) | None => true end
               else true) = true
              <-> (forall x, ex = Some x -> x <> 0 -> id a <> x)).
  { destruct ex as [x|]; simpl.
    - destruct (Z.eqb_spec x 0) as [Z0|NZ]; simpl.
      + split; [intros _ y Hy Hn; inversion Hy; subst; contradiction|reflexivity].
      + rewrite negb_true_iff, Z.eqb_neq.
        split; [intros H y Hy _; inversion Hy; subst; exact H|intro H; apply H; auto].
    - split; [intros _ y Hy; discriminate|reflexivity]. }
  rewrite E. tauto.
Qed.

Lemma filter_length_pos {A : Type} (f : A -> bool) (l : list A) :
  (0 <? Z.of_nat (List.length (filter f l))) = existsb f l.
Proof.
  induction l as [|x tl IH]; simpl; [reflexivity|].
  destruct (f x); simpl; [|exact IH].
  apply Z.ltb_lt. lia.
Qed.

Lemma checkAppointmentConflicts_existsb db s p st en ex :
  checkAppointmentConflicts db s p st en ex
  = existsb (conflictsWith s p st en ex) (appointments db).
Proof. unfold checkAppointmentConflicts. apply filter_length_pos. Qed.

Lemma checkAppointmentConflicts_false db s p st en ex :
  checkAppointmentConflicts db s p st en ex = false <->
  forall a, In a (appointments db) -> conflictsWith s p st en ex a = false.
Proof.
  rewrite checkAppointmentConflicts_existsb.
  split.
  - intros H a Ha. destruct (conflictsWith s p st en ex a) eqn:E; [|reflexivity].
    assert (existsb (conflictsWith s p st en ex) (appointments db) = true)
      by (apply existsb_exists; eauto).
    congruence.
  - intro H. destruct (existsb _ _) eqn:E; [|reflexivity].
    apply existsb_exists in E. destruct E as [a [Ha Hc]].
    rewrite (H a Ha) in Hc. discriminate.
Qed.

Lemma checkAppointmentConflicts_true db s p st en ex :
  checkAppointmentConflicts db s p st en ex = true <->
  exists a, In a (appointments db) /\ conflictsWith s p st en ex a = true.
Proof. rewrite checkAppointmentConflicts_existsb. apply existsb_exists. Qed.

(** ** The handlers keep the invariant *)

Lemma overlaps_sym a b : overlaps a b -> overlaps b a.
Proof. unfold overlaps. tauto. Qed.

Lemma sameParty_sym a b : sameParty a b -> sameParty b a.
Proof. unfold sameParty. intuition congruence. Qed.

Lemma hasStaff_nonzero db i : serialKeys db -> hasStaff db i = true -> i <> 0.
Proof.
  intros [Hs _] H. unfold hasStaff in H.
  apply existsb_exists in H. destruct H as [s [Hin He]].
  apply Z.eqb_eq in He. rewrite Forall_forall in Hs.
  specialize (Hs s Hin). lia.
Qed.

Lemma hasPatient_nonzero db i : serialKeys db -> hasPatient db i = true -> i <> 0.
Proof.
  intros [_ Hp] H. unfold hasPatient in H.
  apply existsb_exists in H. destruct H as [p [Hin He]].
  apply Z.eqb_eq in He. rewrite Forall_forall in Hp.
  specialize (Hp p Hin). lia.
Qed.

Lemma getAppointment_some db i a :
  getAppointment db i = Some a -> In a (appointments db) /\ id a = i.
Proof.
  unfold getAppointment. intro H. apply find_some in H.
  destruct H as [Hin He]. apply Z.eqb_eq in He. auto.
Qed.

Lemma orNum_orElse o d : orElse o d <> 0 -> orNum o d = orElse o d.
Proof.
  destruct o as [n|]; simpl; [|reflexivity].
  intro H. destruct (Z.eqb_spec n 0); [contradiction|reflexivity].
Qed.

Lemma truthyNum_false_orElse o d : truthyNum o = false -> orElse o d <> 0 -> orElse o d = d.
Proof.
  destruct o as [n|]; simpl; [|reflexivity].
  rewrite negb_false_iff, Z.eqb_eq. intros -> H. contradiction.
Qed.

Lemma replaceAppointment_In i new l x :
  In x (replaceAppointment i new l) ->
  (x = new /\ exists a, In a l /\ id a = i) \/ (In x l /\ id x <> i).
Proof.
  unfold replaceAppointment. rewrite in_map_iff.
  intros [a [E Ha]]. destruct (Z.eqb_spec (id a) i) as [Ei|Ni].
  - left. split; [symmetry; exact E|exists a; auto].
  - right. subst x. auto.
Qed.

Lemma replaceAppointment_ids i new l :
  id new = i -> map id (replaceAppointment i new l) = map id l.
Proof.
  intro E. unfold replaceAppointment. rewrite map_map.
  apply map_ext. intro a.
  destruct (Z.eqb_spec (id a) i); congruence.
Qed.

Lemma conflictsWith_false s p st en ex a :
  conflictsWith s p st en ex a = false ->
  staffId a <> s
  /\ (patientId a = p -> startTime a < en -> endTime a > st ->
      (forall x, ex = Some x -> x <> 0 -> id a <> x) -> False).
Proof.
  intro H. split.
  - intro E. assert (T : conflictsWith s p st en ex a = true)
      by (apply conflictsWith_spec; left; exact E).
    congruence.
  - intros Ep H1 H2 Hx.
    assert (T : conflictsWith s p st en ex a = true)
      by (apply conflictsWith_spec; right; auto).
    congruence.
Qed.

Lemma Inv_post now body db : Inv db -> Inv (snd (postAppointment now body db)).
Proof.
  intros I. unfold postAppointment.
  destruct (checkAppointmentConflicts _ _ _ _ _ _) eqn:C; [exact I|].
  unfold createAppointment.
  set (a := newAppointment now (appointments_id_seq db) body).
  destruct I as [Hseq Hids Hnd Hrefs Hstaff Hfree Hkeys].
  destruct (referencesOk db a) eqn:R; simpl.
  - unfold referencesOk in R. rewrite !andb_true_iff in R.
    destruct R as [[[Rp Rs] _] _].
    rewrite checkAppointmentConflicts_false in C.
    assert (Hnew : forall x, In x (appointments db) ->
                     staffId x <> staffId a
                     /\ (sameParty x a -> ~ overlaps x a)).
    { intros x Hx. destruct (conflictsWith_false _ _ _ _ _ _ (C x Hx)) as [Ns Np].
      split; [exact Ns|].
      intros [Es|Ep] [Ho1 Ho2]; [exact (Ns Es)|].
      apply Np; [exact Ep|exact Ho1|simpl in Ho2; lia|intros y Hy; discriminate]. }
    constructor; simpl.
    + lia.
    + apply Forall_app. split.
      * eapply Forall_impl; [|exact Hids]. simpl. intros; lia.
      * constructor; [simpl; lia|constructor].
    + rewrite map_app. simpl.
      apply Permutation_NoDup with (l := appointments_id_seq db :: map id (appointments db)).
      * apply Permutation_cons_append.
      * constructor; [|exact Hnd].
        rewrite in_map_iff. intros [x [Ex Hx]].
        rewrite Forall_forall in Hids. specialize (Hids x Hx). lia.
    + apply Forall_app. split; [exact Hrefs|].
      constructor; [|constructor]. split.
      * apply (hasStaff_nonzero db); assumption.
      * apply (hasPatient_nonzero db); assumption.
    + intros x y Hx Hy Hne.
      apply in_app_or in Hx. apply in_app_or in Hy.
      destruct Hx as [Hx|[Hx|[]]]; destruct Hy as [Hy|[Hy|[]]]; subst.
      * exact (Hstaff x y Hx Hy Hne).
      * exact (proj1 (Hnew x Hx)).
      * intro E. exact (proj1 (Hnew y Hy) (eq_sym E)).
      * exfalso. apply Hne. reflexivity.
    + intros x y Hx Hy Hne Hp Ho.
      apply in_app_or in Hx. apply in_app_or in Hy.
      destruct Hx as [Hx|[Hx|[]]]; destruct Hy as [Hy|[Hy|[]]]; subst.
      * exact (Hfree x y Hx Hy Hne Hp Ho).
      * exact (proj2 (Hnew x Hx) Hp Ho).
      * exact (proj2 (Hnew y Hy) (sameParty_sym _ _ Hp) (overlaps_sym _ _ Ho)).
      * apply Hne. reflexivity.
    + exact Hkeys.
  - constructor; simpl; try assumption; try lia.
    eapply Forall_impl; [|exact Hids]. simpl. intros; lia.
Qed.

(** What the update needs to know about the new row: its references are
    not 0, no other row has its staff member, and it is clear of every
    other row of its patient. *)
Lemma put_new_row now i body db old :
  Inv db ->
  getAppointment db i = Some old ->
  (if changesSlot body
   then checkAppointmentConflicts db
          (orNum (upd_staffId body) (staffId old))
          (orNum (upd_patientId body) (patientId old))
          (orDate (upd_startTime body) (startTime old))
          (orDate (upd_endTime body) (endTime old)) (Some i)
   else false) = false ->
  referencesOkOnUpdate db old (setAppointment now body old) = true ->
  let new := setAppointment now body old in
  (staffId new <> 0 /\ patientId new <> 0)
  /\ forall y, In y (appointments db) -> id y <> i ->
       staffId new <> staffId y
       /\ (sameParty new y -> ~ overlaps new y).
Proof.
  intros I G C R new.
  destruct (getAppointment_some _ _ _ G) as [Hold Eid].
  destruct I as [Hseq Hids Hnd Hrefs Hstaff Hfree Hkeys].
  assert (Hrange := proj1 (Forall_forall _ _) Hids old Hold). simpl in Hrange.
  assert (Holdrefs := proj1 (Forall_forall _ _) Hrefs old Hold). simpl in Holdrefs.
  unfold referencesOkOnUpdate in R. rewrite !andb_true_iff, !orb_true_iff in R.
  destruct R as [[[Rp Rs] _] _].
  assert (Hs : staffId new <> 0).
  { destruct Rs as [E|E].
    - apply Z.eqb_eq in E. fold new in E. rewrite E. tauto.
    - apply (hasStaff_nonzero db); assumption. }
  assert (Hp : patientId new <> 0).
  { destruct Rp as [E|E].
    - apply Z.eqb_eq in E. fold new in E. rewrite E. tauto.
    - apply (hasPatient_nonzero db); assumption. }
  split; [split; assumption|].
  intros y Hy Hne.
  destruct (changesSlot body) eqn:Ch.
  - rewrite checkAppointmentConflicts_false in C. specialize (C y Hy).
    rewrite (orNum_orElse _ _ Hs), (orNum_orElse _ _ Hp) in C.
    change (orDate (upd_startTime body) (startTime old)) with (startTime new) in C.
    change (orDate (upd_endTime body) (endTime old)) with (endTime new) in C.
    change (orElse (upd_staffId body) (staffId old)) with (staffId new) in C.
    change (orElse (upd_patientId body) (patientId old)) with (patientId new) in C.
    destruct (conflictsWith_false _ _ _ _ _ _ C) as [Ns Np].
    split; [intro E; exact (Ns (eq_sym E))|].
    intros [Es|Ep] [Ho1 Ho2]; [exact (Ns (eq_sym Es))|].
    apply Np; [symmetry; exact Ep|exact Ho2|lia|].
    intros x Hx _. inversion Hx; subst. exact Hne.
  - unfold changesSlot in Ch. rewrite !orb_false_iff in Ch.
    destruct Ch as [[[Cst Cen] Cs] Cp].
    assert (Es : staffId new = staffId old)
      by (apply truthyNum_false_orElse; assumption).
    assert (Ep : patientId new = patientId old)
      by (apply truthyNum_false_orElse; assumption).
    assert (Est : startTime new = startTime old)
      by (simpl; destruct (upd_startTime body); [discriminate|reflexivity]).
    assert (Een : endTime new = endTime old)
      by (simpl; destruct (upd_endTime body); [discriminate|reflexivity]).
    assert (Nid : id old <> id y) by congruence.
    split.
    + rewrite Es. exact (Hstaff old y Hold Hy Nid).
    + intros Hparty Ho. apply (Hfree old y Hold Hy Nid).
      * unfold sameParty in *. rewrite <- Es, <- Ep. exact Hparty.
      * unfold overlaps in *. rewrite <- Est, <- Een. exact Ho.
Qed.

Lemma Inv_put now i body db : Inv db -> Inv (snd (putAppointment now i body db)).
Proof.
  intros I. unfold putAppointment.
  destruct (if changesSlot body then _ else false) eqn:C; [exact I|].
  unfold updateAppointment.
  destruct (getAppointment db i) as [old|] eqn:G; [|exact I].
  destruct (referencesOkOnUpdate db old (setAppointment now body old)) eqn:R;
    [|exact I].
  destruct (put_new_row now i body db old I G C R) as [[Hs Hp] Hclear].
  destruct (getAppointment_some _ _ _ G) as [Hold Eid].
  set (new := setAppointment now body old) in *.
  assert (Enew : id new = i) by exact Eid.
  destruct I as [Hseq Hids Hnd Hrefs Hstaff Hfree Hkeys].
  simpl. constructor; simpl.
  - exact Hseq.
  - apply Forall_forall. intros x Hx.
    apply replaceAppointment_In in Hx. destruct Hx as [[-> _]|[Hx _]].
    + rewrite Enew, <- Eid. exact (proj1 (Forall_forall _ _) Hids old Hold).
    + exact (proj1 (Forall_forall _ _) Hids x Hx).
  - rewrite replaceAppointment_ids by exact Enew. exact Hnd.
  - apply Forall_forall. intros x Hx.
    apply replaceAppointment_In in Hx. destruct Hx as [[-> _]|[Hx _]].
    + split; assumption.
    + exact (proj1 (Forall_forall _ _) Hrefs x Hx).
  - intros x y Hx Hy Hne.
    apply replaceAppointment_In in Hx. apply replaceAppointment_In in Hy.
    destruct Hx as [[-> _]|[Hx Nx]]; destruct Hy as [[-> _]|[Hy Ny]].
    + exfalso. apply Hne. reflexivity.
    + exact (proj1 (Hclear y Hy Ny)).
    + intro E. exact (proj1 (Hclear x Hx Nx) (eq_sym E)).
    + exact (Hstaff x y Hx Hy Hne).
  - intros x y Hx Hy Hne Hparty Ho.
    apply replaceAppointment_In in Hx. apply replaceAppointment_In in Hy.
    destruct Hx as [[-> _]|[Hx Nx]]; destruct Hy as [[-> _]|[Hy Ny]].
    + apply Hne. reflexivity.
    + exact (proj2 (Hclear y Hy Ny) Hparty Ho).
    + exact (proj2 (Hclear x Hx Nx) (sameParty_sym _ _ Hparty) (overlaps_sym _ _ Ho)).
    + exact (Hfree x y Hx Hy Hne Hparty Ho).
  - exact Hkeys.
Qed.

Lemma Inv_delete i db : Inv db -> Inv (snd (deleteAppointmentRoute i db)).
Proof.
  intros [Hseq Hids Hnd Hrefs Hstaff Hfree Hkeys]. simpl.
  set (keep := fun a => negb (id a =? i)).
  constructor; simpl.
  - exact Hseq.
  - apply Forall_forall. intros x Hx. apply filter_In in Hx.
    exact (proj1 (Forall_forall _ _) Hids x (proj1 Hx)).
  - clear -Hnd. induction (appointments db) as [|a l IH]; simpl; [constructor|].
    inversion Hnd as [|? ? Hnotin Hnd']; subst.
    destruct (negb (id a =? i)); simpl; [|apply IH, Hnd'].
    constructor; [|apply IH, Hnd'].
    rewrite in_map_iff. intros [x [Ex Hx]]. apply filter_In in Hx.
    apply Hnotin. rewrite in_map_iff. exists x. tauto.
  - apply Forall_forall. intros x Hx. apply filter_In in Hx.
    exact (proj1 (Forall_forall _ _) Hrefs x (proj1 Hx)).
  - intros x y Hx Hy. apply filter_In in Hx. apply filter_In in Hy.
    apply Hstaff; tauto.
  - intros x y Hx Hy. apply filter_In in Hx. apply filter_In in Hy.
    apply Hfree; tauto.
  - exact Hkeys.
Qed.

Lemma sent_is_accepted (body : InsertAppointment) :
  int4 (ins_patientId body) = true -> int4 (ins_staffId body) = true ->
  int4 (ins_serviceId body) = true ->
  (forall r, ins_recurringRuleId body = Some (Some r) -> int4 r = true) ->
  insertAppointmentSchema (sent body) = Some body.
Proof.
  intros Hp Hs Hv Hr. unfold insertAppointmentSchema, sent. simpl.
  rewrite Hp, Hs, Hv. destruct body as [p s0 v st en status n r]. simpl in *.
  destruct status; destruct n as [[x|]|]; destruct r as [[y|]|]; simpl;
    try rewrite (Hr y eq_refl); reflexivity.
Qed.

Lemma Inv_postRoute now raw db :
  Inv db -> Inv (snd (postAppointmentRoute now raw db)).
Proof.
  intro I. unfold postAppointmentRoute.
  destruct (insertAppointmentSchema raw); [apply Inv_post, I|exact I].
Qed.

Lemma Inv_handle now r db : Inv db -> Inv (snd (handle now r db)).
Proof.
  destruct r; simpl.
  - apply Inv_postRoute.
  - apply Inv_put.
  - apply Inv_delete.
Qed.

Lemma Reachable_Inv db : Reachable db -> Inv db.
Proof.
  induction 1 as [db E S K|db now r _ IH|db db' _ IH E S K].
  - constructor; rewrite ?E, ?S; simpl.
    + lia.
    + constructor.
    + constructor.
    + constructor.
    + intros a b [].
    + intros a b [].
    + exact K.
  - apply Inv_handle, IH.
  - destruct IH as [Hseq Hids Hnd Hrefs Hstaff Hfree Hkeys].
    constructor; rewrite ?E, ?S; assumption.
Qed.

Lemma serialKeys_clinic : serialKeys clinic.
Proof. split; simpl; repeat constructor. Defined.

Lemma Reachable_clinic : Reachable clinic.
Proof. apply reach_start; [reflexivity|reflexivity|exact serialKeys_clinic]. Defined.

Lemma Reachable_run rs db : Reachable db -> Reachable (snd (run rs db)).
Proof.
  revert db. induction rs as [|r tl IH]; intros db H; simpl; [exact H|].
  destruct (handle 0 r db) as [resp db1] eqn:E.
  specialize (IH db1).
  destruct (run tl db1) as [resps db2] eqn:E2. simpl in *.
  apply IH. change db1 with (snd (resp, db1)). rewrite <- E.
  apply reach_request, H.
Defined.

(** ** Scheduling invariant *)




(** ** The conflict query as it runs *)

Lemma postAppointment_created now body db a db' :
  postAppointment now body db = (Created a, db') ->
  a = newAppointment now (appointments_id_seq db) body
  /\ db' = with_appointments db (appointments db ++ [a]) (appointments_id_seq db + 1)
  /\ checkAppointmentConflicts db (ins_staffId body) (ins_patientId body)
       (ins_startTime body) (ins_endTime body) None = false
  /\ referencesOk db a = true.
Proof.
  unfold postAppointment, createAppointment. intro H.
  destruct (checkAppointmentConflicts db _ _ _ _ _); [discriminate|].
  destruct (referencesOk db _) eqn:R; [|discriminate].
  inversion H; subst. auto.
Qed.

(** C6, on the code. The interval test only qualifies the patient: the
    conflict query reports a conflict exactly when a stored appointment
    has the staff member, or has the patient and a start before the
    candidate's end and an end after the candidate's start.  So once a
    booking for a staff member is stored, every later booking for that
    staff member is answered 409 and stores nothing, whatever its
    interval: the slot that starts where the first one ends is refused. *)
Theorem back_to_back_same_staff_rejected :
  (forall db s p st en,
     checkAppointmentConflicts db s p st en None = true <->
     exists a, In a (appointments db)
               /\ (staffId a = s
                   \/ (patientId a = p /\ startTime a < en /\ endTime a > st)))
  /\ (forall now body db a db' now' body',
        postAppointment now body db = (Created a, db') ->
        ins_staffId body' = ins_staffId body ->
        postAppointment now' body' db' = (Conflict, db')).
Proof.
  split.
  - intros db s p st en. rewrite checkAppointmentConflicts_true.
    split; intros [a [Ha H]]; exists a; split; try exact Ha.
    + apply conflictsWith_spec in H. tauto.
    + apply conflictsWith_spec. destruct H as [H|[Hp [H1 H2]]]; [left; exact H|].
      right. repeat split; try assumption. intros x Hx; discriminate.
  - intros now body db a db' now' body' Hpost Es.
    destruct (postAppointment_created _ _ _ _ _ Hpost) as [Ea [Ed _]].
    unfold postAppointment.
    assert (C : checkAppointmentConflicts db' (ins_staffId body') (ins_patientId body')
                  (ins_startTime body') (ins_endTime body') None = true).
    { apply checkAppointmentConflicts_true. exists a. split.
      - rewrite Ed. simpl. apply in_or_app. right. left. reflexivity.
      - apply conflictsWith_spec. left. rewrite Ea, Es. reflexivity. }
    rewrite C. reflexivity.
Qed.

Lemma back_to_back_same_staff_rejected_witness :
  fst (run [POST_appointments (sent (booking 1 1 600 630));
            POST_appointments (sent (booking 2 1 630 660))] clinic)
  = [Created (newAppointment 0 1 (booking 1 1 600 630)); Conflict]
  /\ postAppointment 0 (booking 2 1 630 660)
       (snd (postAppointment 0 (booking 1 1 600 630) clinic))
     = (Conflict, snd (postAppointment 0 (booking 1 1 600 630) clinic)).
Proof.
  split; [reflexivity|].
  apply (proj2 back_to_back_same_staff_rejected 0 (booking 1 1 600 630) clinic
           (newAppointment 0 1 (booking 1 1 600 630)) _ 0 (booking 2 1 630 660));
    reflexivity.
Defined.

(** ** Rescheduling *)

(** C8, on the code. The excluded id only qualifies the patient test of
    the conflict query, so the appointment's own row still matches on its
    staff member: every [PUT] that changes the time, the patient or
    names the staff member again, and keeps the staff member, is answered
    409 and changes nothing, even when no other appointment is stored. *)
Theorem reschedule_conflicts_with_own_row (now : Timestamp) (i : Z)
  (body : PartialAppointment) (db : Db) (x : Appointment) :
  getAppointment db i = Some x ->
  changesSlot body = true ->
  orNum (upd_staffId body) (staffId x) = staffId x ->
  checkAppointmentConflicts db
    (orNum (upd_staffId body) (staffId x))
    (orNum (upd_patientId body) (patientId x))
    (orDate (upd_startTime body) (startTime x))
    (orDate (upd_endTime body) (endTime x)) (Some i) = true
  /\ putAppointment now i body db = (Conflict, db).
Proof.
  intros G Ch Es.
  destruct (getAppointment_some _ _ _ G) as [Hx _].
  assert (C : checkAppointmentConflicts db
                (orNum (upd_staffId body) (staffId x))
                (orNum (upd_patientId body) (patientId x))
                (orDate (upd_startTime body) (startTime x))
                (orDate (upd_endTime body) (endTime x)) (Some i) = true).
  { apply checkAppointmentConflicts_true. exists x. split; [exact Hx|].
    apply conflictsWith_spec. left. symmetry. exact Es. }
  split; [exact C|].
  unfold putAppointment. rewrite Ch, G, C. reflexivity.
Qed.

Lemma reschedule_conflicts_with_own_row_witness :
  let db := snd (run [POST_appointments (sent (booking 1 1 10 20))] clinic) in
  appointments db = [newAppointment 0 1 (booking 1 1 10 20)]
  /\ putAppointment 0 1 (moveTo 30 40) db = (Conflict, db).
Proof.
  intro db. split; [reflexivity|].
  apply (reschedule_conflicts_with_own_row 0 1 (moveTo 30 40) db
           (newAppointment 0 1 (booking 1 1 10 20))); reflexivity.
Defined.

(** ** Soft deletion *)

Lemma isTrue_iff o : isTrue o = true <-> o = Some true.
Proof. destruct o as [[|]|]; simpl; split; congruence. Qed.

Section SoftDelete.
Context {Row : Type} (key : Row -> Z) (active : Row -> option bool)
        (off : Row -> Row).
Hypothesis key_off : forall r, key (off r) = key r.
Hypothesis active_off : forall r, active (off r) = Some false.

Lemma softDelete_rows (R : Row -> Row -> Prop) (i : Z) (l : list Row) :
  (forall r, key r = i -> R r (off r)) ->
  (forall r, key r <> i -> R r r) ->
  Forall2 R l (map (fun r => if key r =? i then off r else r) l).
Proof.
  intros Hoff Hsame. induction l as [|r tl IH]; simpl; constructor; [|exact IH].
  destruct (Z.eqb_spec (key r) i); auto.
Qed.

Lemma softDelete_gone (i : Z) (l : list Row) (r : Row) :
  In r (filter (fun x => isTrue (active x))
          (map (fun r => if key r =? i then off r else r) l)) -> key r <> i.
Proof.
  rewrite filter_In. rewrite in_map_iff.
  intros [[r0 [E _]] Hact]. apply isTrue_iff in Hact.
  destruct (Z.eqb_spec (key r0) i) as [Ek|Nk]; subst r.
  - rewrite active_off in Hact. discriminate.
  - exact Nk.
Qed.

Lemma softDelete_others (i : Z) (l : list Row) (r : Row) :
  key r <> i ->
  In r (filter (fun x => isTrue (active x)) l) ->
  In r (filter (fun x => isTrue (active x))
          (map (fun r => if key r =? i then off r else r) l)).
Proof.
  rewrite !filter_In. intros Nk [Hin Hact]. split; [|exact Hact].
  apply in_map_iff. exists r. split; [|exact Hin].
  destruct (Z.eqb_spec (key r) i); [contradiction|reflexivity].
Qed.

End SoftDelete.

(** C10. [deleteStaff], [deletePatient] and [deleteService] are soft
    deletes: row by row the table keeps every column except [isActive],
    which becomes [false] on the row with the given id and stays as it was
    on the others; every other table, the appointments among them, is
    untouched; [getAllStaff], [getAllPatients] and [getAllServices] return
    exactly the rows whose [isActive] is [true], so the deleted entity is
    no longer listed while the other listed rows still are. *)
Theorem delete_is_soft (i : Z) (db : Db) :
  (sameButStaff db (deleteStaff i db)
   /\ Forall2 (staffDeactivated i) (staff db) (staff (deleteStaff i db))
   /\ (forall s, In s (getAllStaff db) <->
                 In s (staff db) /\ staff_isActive s = Some true)
   /\ (forall s, In s (getAllStaff (deleteStaff i db)) -> staff_id s <> i)
   /\ (forall s, staff_id s <> i -> In s (getAllStaff db) ->
                 In s (getAllStaff (deleteStaff i db))))
  /\ (sameButPatients db (deletePatient i db)
      /\ Forall2 (patientDeactivated i) (patients db) (patients (deletePatient i db))
      /\ (forall p, In p (getAllPatients db) <->
                    In p (patients db) /\ patient_isActive p = Some true)
      /\ (forall p, In p (getAllPatients (deletePatient i db)) -> patient_id p <> i)
      /\ (forall p, patient_id p <> i -> In p (getAllPatients db) ->
                    In p (getAllPatients (deletePatient i db))))
  /\ (sameButServices db (deleteService i db)
      /\ Forall2 (serviceDeactivated i) (services db) (services (deleteService i db))
      /\ (forall s, In s (getAllServices db) <->
                    In s (services db) /\ service_isActive s = Some true)
      /\ (forall s, In s (getAllServices (deleteService i db)) -> service_id s <> i)
      /\ (forall s, service_id s <> i -> In s (getAllServices db) ->
                    In s (getAllServices (deleteService i db)))).
Proof.
  split; [|split].
  - split; [repeat split|split; [|split; [|split]]].
    + apply (softDelete_rows staff_id deactivateStaff);
        intros r Hr; unfold staffDeactivated; simpl; intuition congruence.
    + intro s. unfold getAllStaff. rewrite orderBy_In, filter_In, isTrue_iff. tauto.
    + intros s H. unfold getAllStaff in H. rewrite orderBy_In in H.
      apply (softDelete_gone staff_id staff_isActive deactivateStaff) in H;
        [exact H|reflexivity].
    + intros s Ns H. unfold getAllStaff in *. rewrite orderBy_In in *.
      apply (softDelete_others staff_id staff_isActive deactivateStaff); assumption.
  - split; [repeat split|split; [|split; [|split]]].
    + apply (softDelete_rows patient_id deactivatePatient);
        intros r Hr; unfold patientDeactivated; simpl; intuition congruence.
    + intro s. unfold getAllPatients. rewrite orderBy_In, filter_In, isTrue_iff. tauto.
    + intros s H. unfold getAllPatients in H. rewrite orderBy_In in H.
      apply (softDelete_gone patient_id patient_isActive deactivatePatient) in H;
        [exact H|reflexivity].
    + intros s Ns H. unfold getAllPatients in *. rewrite orderBy_In in *.
      apply (softDelete_others patient_id patient_isActive deactivatePatient); assumption.
  - split; [repeat split|split; [|split; [|split]]].
    + apply (softDelete_rows service_id deactivateService);
        intros r Hr; unfold serviceDeactivated; simpl; intuition congruence.
    + intro s. unfold getAllServices. rewrite orderBy_In, filter_In, isTrue_iff. tauto.
    + intros s H. unfold getAllServices in H. rewrite orderBy_In in H.
      apply (softDelete_gone service_id service_isActive deactivateService) in H;
        [exact H|reflexivity].
    + intros s Ns H. unfold getAllServices in *. rewrite orderBy_In in *.
      apply (softDelete_others service_id service_isActive deactivateService); assumption.
Qed.

Lemma delete_is_soft_witness :
  map staff_isActive (staff (deleteStaff 1 clinic)) = [Some false; Some true]
  /\ In (mkStaffRow 2 "Bob" None) (getAllStaff (deleteStaff 1 clinic))
  /\ appointments (deleteStaff 1 clinic) = appointments clinic.
Proof.
  split; [reflexivity|split; [|reflexivity]].
  destruct (proj1 (delete_is_soft 1 clinic)) as [_ [_ [_ [_ H]]]].
  apply H.
  - simpl. lia.
  - simpl. right. left. reflexivity.
Defined.

(** ** Availability is not consulted when booking *)

Lemma hasStaff_withAvailability g excls db i :
  hasStaff (withAvailability g excls db) i = hasStaff db i.
Proof.
  unfold hasStaff. simpl. induction (staff db) as [|s l IH]; simpl; [reflexivity|].
  rewrite IH. reflexivity.
Qed.

Lemma referencesOk_withAvailability g excls db a :
  referencesOk (withAvailability g excls db) a = referencesOk db a.
Proof.
  unfold referencesOk. rewrite hasStaff_withAvailability. reflexivity.
Qed.

(** C2, as stated, fails: staff member 1 of the clinic has a weekly
    template without any window and an exclusion over [[0, 1000000)], the
    requested interval [[10, 20)] lies inside that exclusion, and the
    booking is answered 201 and stored. *)
Lemma availability_gating_counterexample :
  option_map staff_availability (getStaff clinic 1) = Some (Some (JObj []))
  /\ option_map exclusions (getStaffAvailability 1 0 clinic) = Some [holiday]
  /\ insideExclusion clinic 1 10 20 = true
  /\ postAppointment 0 (booking 1 1 10 20) clinic
     = (Created (newAppointment 0 1 (booking 1 1 10 20)),
        with_appointments clinic [newAppointment 0 1 (booking 1 1 10 20)] 2).
Proof. repeat split. Qed.

(** C2, amended. [POST /api/appointments] does not consult the weekly
    availability template or the exclusions: its response and the
    appointments it stores are the same whatever templates the staff rows
    carry and whatever the exclusions table holds. *)
Theorem booking_ignores_availability (now : Timestamp) (body : InsertAppointment)
  (db : Db) (g : Staff -> option Json) (excls : list StaffAvailabilityExclusion) :
  fst (postAppointment now body (withAvailability g excls db))
  = fst (postAppointment now body db)
  /\ appointments (snd (postAppointment now body (withAvailability g excls db)))
     = appointments (snd (postAppointment now body db))
  /\ snd (postAppointment now body (withAvailability g excls db))
     = withAvailability g excls (snd (postAppointment now body db)).
Proof.
  unfold postAppointment.
  change (checkAppointmentConflicts (withAvailability g excls db))
    with (checkAppointmentConflicts db).
  destruct (checkAppointmentConflicts db _ _ _ _ _); [repeat split|].
  unfold createAppointment.
  change (appointments_id_seq (withAvailability g excls db))
    with (appointments_id_seq db).
  rewrite referencesOk_withAvailability.
  destruct (referencesOk db _); repeat split.
Qed.

(** ** Status is not consulted by the conflict query *)

Lemma conflictsWith_setStatus f s p st en ex a :
  conflictsWith s p st en ex (setStatus f a) = conflictsWith s p st en ex a.
Proof. reflexivity. Qed.

Lemma checkAppointmentConflicts_withStatuses f db s p st en ex :
  checkAppointmentConflicts (withStatuses f db) s p st en ex
  = checkAppointmentConflicts db s p st en ex.
Proof.
  rewrite !checkAppointmentConflicts_existsb. simpl.
  induction (appointments db) as [|a l IH]; simpl; [reflexivity|].
  rewrite IH, conflictsWith_setStatus. reflexivity.
Qed.

Lemma getAppointment_withStatuses f db i :
  getAppointment (withStatuses f db) i = option_map (setStatus f) (getAppointment db i).
Proof.
  unfold getAppointment. simpl.
  induction (appointments db) as [|a l IH]; simpl; [reflexivity|].
  destruct (id a =? i); [reflexivity|exact IH].
Qed.

(** C3, as stated, fails: after appointment 1 (staff 1, [[10, 20)]) has
    been cancelled it is the only stored appointment, its status is
    [cancelled], and a booking for another patient with staff 1 over the
    same interval is still answered 409. *)
Lemma conflict_only_scheduled_counterexample :
  let db := snd (run [POST_appointments (sent (booking 1 1 10 20));
                      PUT_appointments 1 (statusOnly "cancelled")] clinic) in
  map status (appointments db) = ["cancelled"%string]
  /\ checkAppointmentConflicts db 1 2 10 20 None = true
  /\ postAppointment 0 (booking 2 1 10 20) db = (Conflict, db).
Proof. repeat split. Qed.

(** C3, amended. Conflict detection considers stored appointments of every
    status: the answer of [checkAppointmentConflicts] does not change when
    the statuses in the table are rewritten in any way, and a booking that
    overlaps a stored appointment of the same staff member or the same
    patient is answered 409 and stores nothing, whatever the status of that
    appointment. *)
Theorem conflict_considers_every_status :
  (forall f db s p st en ex,
     checkAppointmentConflicts (withStatuses f db) s p st en ex
     = checkAppointmentConflicts db s p st en ex)
  /\ (forall now body db a,
        In a (appointments db) ->
        staffId a = ins_staffId body \/ patientId a = ins_patientId body ->
        startTime a < ins_endTime body -> endTime a > ins_startTime body ->
        postAppointment now body db = (Conflict, db)).
Proof.
  split.
  - intros. apply checkAppointmentConflicts_withStatuses.
  - intros now body db a Ha Hparty H1 H2. unfold postAppointment.
    assert (C : checkAppointmentConflicts db (ins_staffId body) (ins_patientId body)
                  (ins_startTime body) (ins_endTime body) None = true).
    { apply checkAppointmentConflicts_true. exists a. split; [exact Ha|].
      apply conflictsWith_spec. destruct Hparty as [Es|Ep]; [left; exact Es|].
      right. repeat split; try assumption.
      intros x Hx; discriminate. }
    rewrite C. reflexivity.
Qed.

Lemma conflict_considers_every_status_witness :
  let a := setStatus (fun _ => "no_show"%string) (newAppointment 0 1 (booking 1 1 10 20)) in
  let db := with_appointments clinic [a] 2 in
  status a = "no_show"%string
  /\ postAppointment 0 (booking 2 1 15 25) db = (Conflict, db).
Proof.
  intros a db. split; [reflexivity|].
  apply (proj2 conflict_considers_every_status 0 (booking 2 1 15 25) db a).
  - simpl. left. reflexivity.
  - left. reflexivity.
  - simpl. lia.
  - simpl. lia.
Defined.

(** ** Status changes are not gated *)

Lemma referencesOkOnUpdate_same db old new :
  patientId new = patientId old -> staffId new = staffId old ->
  serviceId new = serviceId old -> recurringRuleId new = recurringRuleId old ->
  referencesOkOnUpdate db old new = true.
Proof.
  intros Ep Es Ev Er. unfold referencesOkOnUpdate.
  rewrite Ep, Es, Ev, Er, !Z.eqb_refl. simpl.
  destruct (recurringRuleId old) as [r|]; simpl; [rewrite Z.eqb_refl|]; reflexivity.
Qed.

(** C4, as stated, fails: appointment 1 is cancelled, a terminal status;
    cancelling it again is answered 200, handing it to another staff
    member is answered 200, and setting it back to [scheduled] is
    answered 200. *)
Lemma terminal_status_counterexample :
  let db := snd (run [POST_appointments (sent (booking 1 1 10 20));
                      PUT_appointments 1 (statusOnly "cancelled")] clinic) in
  let a := setStatus (fun _ => "cancelled"%string)
                     (newAppointment 0 1 (booking 1 1 10 20)) in
  getAppointment db 1 = Some a
  /\ isTerminal a
  /\ fst (putAppointment 0 1 (statusOnly "cancelled") db) = Ok (Some a)
  /\ fst (putAppointment 0 1 (changeStaff 2) db)
     = Ok (Some (setAppointment 0 (changeStaff 2) a))
  /\ fst (putAppointment 0 1 (statusOnly "scheduled") db)
     = Ok (Some (setStatus (fun _ => "scheduled"%string) a)).
Proof.
  repeat split. right. left. reflexivity.
Qed.

(** C4, amended. The status of an appointment does not gate later changes:
    a [PUT] that carries only a status, sent for a stored appointment in any
    status, is answered 200 and stores the requested status (so cancelling
    a cancelled appointment returns success); and whether any [PUT] is
    answered 409 does not depend on the statuses stored in the table. *)
Theorem status_change_always_accepted :
  (forall now i s db old,
     getAppointment db i = Some old ->
     let new := setAppointment now (statusOnly s) old in
     putAppointment now i (statusOnly s) db
     = (Ok (Some new),
        with_appointments db (replaceAppointment i new (appointments db))
                          (appointments_id_seq db))
     /\ status new = s
     /\ getAppointment (snd (putAppointment now i (statusOnly s) db)) i = Some new)
  /\ (forall now i body db f,
        fst (putAppointment now i body (withStatuses f db)) = Conflict
        <-> fst (putAppointment now i body db) = Conflict).
Proof.
  split.
  - intros now i s db old G new.
    assert (P : putAppointment now i (statusOnly s) db
                = (Ok (Some new),
                   with_appointments db (replaceAppointment i new (appointments db))
                                     (appointments_id_seq db))).
    { unfold putAppointment, updateAppointment. simpl. rewrite G.
      fold new. rewrite referencesOkOnUpdate_same by reflexivity. reflexivity. }
    split; [exact P|split; [reflexivity|]].
    rewrite P. simpl. unfold getAppointment in *. simpl.
    destruct (getAppointment_some db i old G) as [_ Ei].
    clear P. induction (appointments db) as [|a l IH]; simpl in *; [discriminate|].
    destruct (Z.eqb_spec (id a) i) as [E|N].
    + simpl. change (id new) with (id old). rewrite Ei, Z.eqb_refl. reflexivity.
    + destruct (Z.eqb_spec (id a) i); [contradiction|]. apply IH, G.
  - intros now i body db f. unfold putAppointment.
    rewrite getAppointment_withStatuses.
    destruct (getAppointment db i) as [old|] eqn:G; simpl.
    + rewrite checkAppointmentConflicts_withStatuses.
      destruct (if changesSlot body then _ else false) eqn:C.
      * tauto.
      * destruct (updateAppointment now i body (withStatuses f db)) as [[x|] d];
          destruct (updateAppointment now i body db) as [[y|] d'];
          simpl; split; discriminate.
    + replace (if changesSlot body then false else false) with false
        by (destruct (changesSlot body); reflexivity).
      destruct (updateAppointment now i body (withStatuses f db)) as [[x|] d];
        destruct (updateAppointment now i body db) as [[y|] d'];
        simpl; split; discriminate.
Qed.

Lemma status_change_always_accepted_witness :
  let db := snd (run [POST_appointments (sent (booking 1 1 10 20));
                      PUT_appointments 1 (statusOnly "completed")] clinic) in
  option_map status (getAppointment db 1) = Some "completed"%string
  /\ option_map status
       (getAppointment (snd (putAppointment 5 1 (statusOnly "no_show") db)) 1)
     = Some "no_show"%string.
Proof.
  intro db. split; [reflexivity|].
  assert (G : getAppointment db 1
              = Some (setStatus (fun _ => "completed"%string)
                                (newAppointment 0 1 (booking 1 1 10 20))))
    by reflexivity.
  destruct (proj1 status_change_always_accepted 5 1 "no_show"%string db _ G)
    as [_ [_ H]].
  rewrite H. reflexivity.
Defined.

(** ** Capacity is not consulted by the conflict query *)

(** C5, as stated, fails: the service booked is a group service of
    capacity 3; the first patient books staff 1 over [[10, 20)] and is
    answered 201, the second patient asks for the same staff member and
    the identical interval and is answered 409. *)
Lemma group_capacity_counterexample :
  option_map service_capacity (getService clinic 1) = Some (Some 3)
  /\ option_map service_isGroup (getService clinic 1) = Some (Some true)
  /\ fst (run [POST_appointments (sent (booking 1 1 10 20));
               POST_appointments (sent (booking 2 1 10 20))] clinic)
     = [Created (newAppointment 0 1 (booking 1 1 10 20)); Conflict].
Proof. repeat split. Qed.

(** C5, amended. The conflict check knows nothing of services: once a
    booking for a staff member over a non-empty interval has been stored,
    every later booking for the same staff member over the identical
    interval is answered 409 and stores nothing, whatever the patient, the
    service and its capacity. *)
Theorem same_slot_is_exclusive (now now' : Timestamp) (body body' : InsertAppointment)
  (db db' : Db) (a : Appointment) :
  postAppointment now body db = (Created a, db') ->
  ins_startTime body < ins_endTime body ->
  ins_staffId body' = ins_staffId body ->
  ins_startTime body' = ins_startTime body ->
  ins_endTime body' = ins_endTime body ->
  postAppointment now' body' db' = (Conflict, db').
Proof.
  intros Hpost Hne Es Est Een.
  destruct (postAppointment_created _ _ _ _ _ Hpost) as [Ea [Ed _]].
  unfold postAppointment.
  assert (C : checkAppointmentConflicts db' (ins_staffId body') (ins_patientId body')
                (ins_startTime body') (ins_endTime body') None = true).
  { apply checkAppointmentConflicts_true. exists a. split.
    - rewrite Ed. simpl. apply in_or_app. right. left. reflexivity.
    - apply conflictsWith_spec. rewrite Ea. simpl.
      left. symmetry. exact Es. }
  rewrite C. reflexivity.
Qed.

Lemma same_slot_is_exclusive_witness :
  let db' := with_appointments clinic [newAppointment 0 1 (booking 1 1 10 20)] 2 in
  postAppointment 7 (booking 2 1 10 20) db' = (Conflict, db').
Proof.
  intro db'.
  apply (same_slot_is_exclusive 0 7 (booking 1 1 10 20) (booking 2 1 10 20)
           clinic db' (newAppointment 0 1 (booking 1 1 10 20))).
  - reflexivity.
  - simpl. lia.
  - reflexivity.
  - reflexivity.
  - reflexivity.
Defined.

(** ** Range and calendar queries *)

Lemma Sorted_weaken {A : Type} (R S : A -> A -> Prop) (l : list A) :
  (forall a b, R a b -> S a b) -> Sorted R l -> Sorted S l.
Proof.
  intros H. induction 1 as [|a l Hs IH Hd]; constructor; [exact IH|].
  destruct Hd; constructor; auto.
Qed.

Lemma orderBy_asc_sorted {A : Type} (key : A -> Z) (l : list A) :
  Sorted (fun a b => key a <= key b) (orderBy (asc key) l).
Proof.
  apply Sorted_weaken with (R := fun a b => asc key a b = true).
  - intros a b H. apply Z.leb_le. exact H.
  - apply orderBy_sorted. apply asc_total.
Qed.

Lemma orderBy_desc_sorted {A : Type} (key : A -> Z) (l : list A) :
  Sorted (fun a b => key a >= key b) (orderBy (desc key) l).
Proof.
  apply Sorted_weaken with (R := fun a b => desc key a b = true).
  - intros a b H. unfold desc in H. apply Z.leb_le in H. lia.
  - apply orderBy_sorted. apply desc_total.
Qed.

(** C7, as stated, fails: the stored appointment of staff 1 over
    [[5, 15)] intersects the range from 10 to 20, yet the query for staff 1
    over that range returns nothing; a query for staff 2 over the range
    from 0 to 10 returns that appointment of staff 1; and a query by
    patient id alone returns the later appointment first. *)
Lemma calendar_query_counterexample :
  let a := newAppointment 0 1 (booking 1 1 5 15) in
  let b := newAppointment 0 2 (booking 1 2 30 40) in
  let db := snd (run [POST_appointments (sent (booking 1 1 5 15));
                      POST_appointments (sent (booking 1 2 30 40))] clinic) in
  appointments db = [a; b]
  /\ staffId a = 1 /\ intersectsRange 10 20 a
  /\ getAppointments (mkQuery (Some 10) (Some 20) (Some 1) None) db = []
  /\ getAppointments (mkQuery (Some 0) (Some 10) (Some 2) None) db = [a]
  /\ getAppointments (mkQuery None None None (Some 1)) db = [b; a].
Proof. repeat split. Qed.

(** C7, amended. With both [startDate] and [endDate],
    [GET /api/appointments] returns exactly the appointments, of any
    status, staff member and patient, whose [startTime] lies in the closed
    range from [startDate] to [endDate], ordered by [startTime] ascending;
    without a complete range, a query by staff id returns exactly that staff
    member's appointments and, failing a staff id, a query by patient id
    exactly that patient's, both ordered by [startTime] descending; a
    query that matches nothing, or runs on an empty table, returns the
    empty list. *)
Theorem calendar_query_by_start_time :
  (forall db from to s p,
     let r := getAppointments (mkQuery (Some from) (Some to) s p) db in
     Permutation (filter (startsWithin from to) (appointments db)) r
     /\ Sorted (fun a b => startTime a <= startTime b) r)
  /\ (forall db from to s p,
        from = None \/ to = None ->
        let r := getAppointments (mkQuery from to (Some s) p) db in
        Permutation (filter (fun a => staffId a =? s) (appointments db)) r
        /\ Sorted (fun a b => startTime a >= startTime b) r)
  /\ (forall db from to p,
        from = None \/ to = None ->
        let r := getAppointments (mkQuery from to None (Some p)) db in
        Permutation (filter (fun a => patientId a =? p) (appointments db)) r
        /\ Sorted (fun a b => startTime a >= startTime b) r)
  /\ (forall db from to s p,
        filter (startsWithin from to) (appointments db) = [] ->
        getAppointments (mkQuery (Some from) (Some to) s p) db = [])
  /\ (forall db q, appointments db = [] -> getAppointments q db = []).
Proof.
  split; [|split; [|split; [|split]]].
  - intros db from to s p. simpl. unfold getAppointmentsByDateRange. split.
    + apply orderBy_perm.
    + apply orderBy_asc_sorted.
  - intros db from to s p H r.
    assert (E : r = getAppointmentsByStaff db s).
    { unfold r, getAppointments. simpl.
      destruct H as [-> | ->]; [reflexivity|destruct from; reflexivity]. }
    rewrite E. unfold getAppointmentsByStaff. split.
    + apply orderBy_perm.
    + apply orderBy_desc_sorted.
  - intros db from to p H r.
    assert (E : r = getAppointmentsByPatient db p).
    { unfold r, getAppointments. simpl.
      destruct H as [-> | ->]; [reflexivity|destruct from; reflexivity]. }
    rewrite E. unfold getAppointmentsByPatient. split.
    + apply orderBy_perm.
    + apply orderBy_desc_sorted.
  - intros db from to s p E.
    change (getAppointments (mkQuery (Some from) (Some to) s p) db)
      with (orderBy (asc startTime)
                    (filter (startsWithin from to) (appointments db))).
    rewrite E. reflexivity.
  - intros db q E. unfold getAppointments, getAppointmentsByDateRange,
      getAppointmentsByStaff, getAppointmentsByPatient, getAllAppointments.
    rewrite E.
    destruct (q_startDate q), (q_endDate q), (q_staffId q), (q_patientId q);
      reflexivity.
Qed.

Lemma calendar_query_by_start_time_witness :
  let db := snd (run [POST_appointments (sent (booking 1 1 5 15));
                      POST_appointments (sent (booking 1 2 30 40))] clinic) in
  let r := getAppointments (mkQuery None (Some 50) None (Some 1)) db in
  map id r = [2; 1]
  /\ Permutation (filter (fun a => patientId a =? 1) (appointments db)) r
  /\ Sorted (fun a b => startTime a >= startTime b) r.
Proof.
  intros db r. split; [reflexivity|].
  apply (proj1 (proj2 (proj2 calendar_query_by_start_time)) db None (Some 50) 1).
  left. reflexivity.
Defined.

(** ** End time of a booking *)

(** C9, as stated, fails: service 1 lasts 30 minutes; a booking that
    starts at 10 and names the end time 20 is answered 201 and the stored
    row ends at 20, which is neither 10 plus 30 nor 10 plus 30 minutes in
    milliseconds. *)
Lemma end_time_counterexample :
  option_map service_duration (getService clinic 1) = Some 30
  /\ postAppointment 0 (booking 1 1 10 20) clinic
     = (Created (newAppointment 0 1 (booking 1 1 10 20)),
        with_appointments clinic [newAppointment 0 1 (booking 1 1 10 20)] 2)
  /\ endTime (newAppointment 0 1 (booking 1 1 10 20)) = 20
  /\ 20 <> 10 + 30
  /\ 20 <> 10 + 30 * 60000.
Proof. repeat split; discriminate. Qed.

(** C9, amended. The server stores the start and end time the request
    carries, without looking at the service; it is the booking form of the
    client that computes the end time, as the start time plus the
    duration of the selected service in minutes (60 minutes when the
    service is not found or its duration is 0). *)
Theorem end_time_is_as_requested :
  (forall now body db a db',
     postAppointment now body db = (Created a, db') ->
     In a (appointments db')
     /\ startTime a = ins_startTime body /\ endTime a = ins_endTime body)
  /\ (forall servicesList data,
        let body := onSubmit servicesList data in
        let service :=
          find (fun s => service_id s =? form_serviceId data) servicesList in
        ins_startTime body = form_start data
        /\ ins_endTime body = ins_startTime body + durationOr60 service * 60000
        /\ (forall s, service = Some s -> service_duration s <> 0 ->
                      ins_endTime body
                      = ins_startTime body + service_duration s * 60000)).
Proof.
  split.
  - intros now body db a db' H.
    destruct (postAppointment_created _ _ _ _ _ H) as [Ea [Ed _]].
    subst a db'. simpl. repeat split.
    apply in_or_app. right. left. reflexivity.
  - intros servicesList data body service. repeat split.
    intros s Hs Hd. unfold body, onSubmit. simpl. fold service. rewrite Hs.
    simpl. destruct (Z.eqb_spec (service_duration s) 0); [contradiction|reflexivity].
Qed.

Lemma end_time_is_as_requested_witness :
  let form := mkBookingForm 1 1 1 600000 None in
  ins_endTime (onSubmit (services clinic) form) = 600000 + 30 * 60000
  /\ endTime (newAppointment 0 1 (booking 1 1 10 20)) = 20.
Proof.
  intro form. split.
  - destruct (proj2 end_time_is_as_requested (services clinic) form) as [_ [_ H]].
    apply (H yoga).
    + reflexivity.
    + discriminate.
  - apply (proj1 end_time_is_as_requested 0 (booking 1 1 10 20) clinic
             (newAppointment 0 1 (booking 1 1 10 20))
             (with_appointments clinic [newAppointment 0 1 (booking 1 1 10 20)] 2)).
    reflexivity.
Defined.

(** ** The scenario of the specification, on the code

    Staff 1 is booked by patient 1 from 10 to 20.  A second patient asking
    for staff 1 from 15 to 25 is refused, and so is patient 1 asking for
    staff 2 over that interval (patient double-booked).  A second patient
    asking for staff 1 from 20 to 30 is refused as well, staff 1 being
    taken; patient 1 asking for staff 2 from 20 to 30 is accepted. *)
Example double_booking_scenario :
  fst (run [POST_appointments (sent (booking 1 1 10 20));
            POST_appointments (sent (booking 2 1 15 25));
            POST_appointments (sent (booking 1 2 15 25));
            POST_appointments (sent (booking 2 1 20 30));
            POST_appointments (sent (booking 1 2 20 30))] clinic)
  = [Created (newAppointment 0 1 (booking 1 1 10 20));
     Conflict;
     Conflict;
     Conflict;
     Created (newAppointment 0 2 (booking 1 2 20 30))].
Proof. reflexivity. Qed.

(** * Further properties of the storage layer and the routes *)

(** ** What reachable states guarantee beyond the claims *)

(** X1. In every reachable state no two distinct stored appointments of
    the same staff member, or of the same patient, overlap, whatever
    their statuses: a cancelled or completed appointment keeps its slot
    taken. *)
Theorem reachable_exclusive_any_status (db : Db) (a b : Appointment) :
  Reachable db ->
  In a (appointments db) -> In b (appointments db) -> id a <> id b ->
  staffId a = staffId b \/ patientId a = patientId b ->
  ~ overlaps a b.
Proof.
  intros R Ha Hb Hne Hp.
  destruct (Reachable_Inv db R) as [_ _ _ _ _ Hfree _].
  exact (Hfree a b Ha Hb Hne Hp).
Qed.

Lemma reachable_exclusive_any_status_witness :
  let db := snd (run [POST_appointments (sent (booking 1 1 10 20));
                      PUT_appointments 1 (statusOnly "cancelled");
                      POST_appointments (sent (booking 1 2 20 30))] clinic) in
  let a := setStatus (fun _ => "cancelled"%string)
                     (newAppointment 0 1 (booking 1 1 10 20)) in
  let b := newAppointment 0 2 (booking 1 2 20 30) in
  appointments db = [a; b] /\ ~ overlaps a b.
Proof.
  intros db a b. split; [reflexivity|].
  apply (reachable_exclusive_any_status db a b).
  - apply Reachable_run. exact Reachable_clinic.
  - simpl. left. reflexivity.
  - simpl. right. left. reflexivity.
  - simpl. lia.
  - right. reflexivity.
Defined.

Lemma handle_seq_monotone now r db :
  appointments_id_seq db <= appointments_id_seq (snd (handle now r db)).
Proof.
  destruct r as [raw|i body|i]; simpl.
  - unfold postAppointmentRoute.
    destruct (insertAppointmentSchema raw) as [body|]; simpl; [|lia].
    unfold postAppointment, createAppointment.
    destruct (checkAppointmentConflicts _ _ _ _ _ _); simpl; [lia|].
    destruct (referencesOk _ _); simpl; lia.
  - unfold putAppointment, updateAppointment.
    destruct (if changesSlot body then _ else false); simpl; [lia|].
    destruct (getAppointment db i); simpl; [|lia].
    destruct (referencesOkOnUpdate _ _ _); simpl; lia.
  - lia.
Qed.

(** X2. Appointment ids behave as serial keys: in every reachable state
    each stored id is positive and below the next value of the sequence,
    the stored staff and patient references are never 0, and no request
    moves the sequence backwards, so an id is never handed out twice, not
    even after its row was deleted. *)
Theorem reachable_ids_serial (db : Db) :
  Reachable db ->
  Forall (fun a => 0 < id a < appointments_id_seq db) (appointments db)
  /\ Forall (fun a => staffId a <> 0 /\ patientId a <> 0) (appointments db)
  /\ forall now r,
       appointments_id_seq db <= appointments_id_seq (snd (handle now r db))
       /\ Forall (fun a => 0 < id a
                           < appointments_id_seq (snd (handle now r db)))
                 (appointments (snd (handle now r db))).
Proof.
  intro R. destruct (Reachable_Inv db R) as [_ Hids _ Hrefs _ _ _].
  split; [exact Hids|split; [exact Hrefs|]].
  intros now r. split; [apply handle_seq_monotone|].
  assert (R' : Reachable (snd (handle now r db))) by (apply reach_request, R).
  destruct (Reachable_Inv _ R') as [_ Hids' _ _ _ _ _]. exact Hids'.
Qed.

Lemma reachable_ids_serial_witness :
  let db := snd (run [POST_appointments (sent (booking 1 1 10 20));
                      DELETE_appointments 1;
                      POST_appointments (sent (booking 1 1 10 20))] clinic) in
  map id (appointments db) = [2]
  /\ Forall (fun a => 0 < id a < appointments_id_seq db) (appointments db).
Proof.
  intro db. split; [reflexivity|].
  apply (reachable_ids_serial db).
  apply Reachable_run. exact Reachable_clinic.
Defined.

(** ** Booking: what a request leaves behind *)

Lemma find_id_app (l : list Appointment) (a : Appointment) (j : Z) :
  find (fun x => id x =? j) (l ++ [a])
  = match find (fun x => id x =? j) l with
    | Some x => Some x
    | None => if id a =? j then Some a else None
    end.
Proof.
  induction l as [|y tl IH]; simpl.
  - reflexivity.
  - destruct (id y =? j); [reflexivity|exact IH].
Qed.

Lemma find_id_fresh (l : list Appointment) (j : Z) :
  Forall (fun a => id a < j) l -> find (fun x => id x =? j) l = None.
Proof.
  induction 1 as [|y tl Hy _ IH]; simpl; [reflexivity|].
  destruct (Z.eqb_spec (id y) j); [lia|exact IH].
Qed.

(** X3. Insert then look up: in a reachable state, a booking answered 201
    returns a row whose id is the next sequence value, which no stored
    row had; afterwards [getAppointment] finds exactly that row under
    that id and every other id resolves as before. *)
Theorem booked_row_is_found (now : Timestamp) (body : InsertAppointment)
  (db db' : Db) (a : Appointment) :
  Reachable db ->
  postAppointment now body db = (Created a, db') ->
  id a = appointments_id_seq db
  /\ getAppointment db (id a) = None
  /\ getAppointment db' (id a) = Some a
  /\ forall j, j <> id a -> getAppointment db' j = getAppointment db j.
Proof.
  intros R H.
  destruct (postAppointment_created _ _ _ _ _ H) as [Ea [Ed _]].
  destruct (Reachable_Inv db R) as [_ Hids _ _ _ _ _].
  assert (Eid : id a = appointments_id_seq db) by (rewrite Ea; reflexivity).
  assert (Fresh : getAppointment db (id a) = None).
  { unfold getAppointment. apply find_id_fresh. rewrite Eid.
    eapply Forall_impl; [|exact Hids]. simpl. intros; lia. }
  split; [exact Eid|split; [exact Fresh|split]].
  - rewrite Ed. unfold getAppointment in *. simpl.
    rewrite find_id_app, Fresh, Z.eqb_refl. reflexivity.
  - intros j Hj. rewrite Ed. unfold getAppointment. simpl.
    rewrite find_id_app.
    destruct (find (fun x => id x =? j) (appointments db)); [reflexivity|].
    destruct (Z.eqb_spec (id a) j); [congruence|reflexivity].
Qed.

Lemma booked_row_is_found_witness :
  let db := snd (run [POST_appointments (sent (booking 1 1 10 20))] clinic) in
  let a := newAppointment 3 2 (booking 2 2 10 20) in
  fst (postAppointment 3 (booking 2 2 10 20) db) = Created a
  /\ getAppointment (snd (postAppointment 3 (booking 2 2 10 20) db)) 2 = Some a.
Proof.
  intros db a. split; [reflexivity|].
  assert (R : Reachable db) by (apply Reachable_run; exact Reachable_clinic).
  destruct (booked_row_is_found 3 (booking 2 2 10 20) db
              (snd (postAppointment 3 (booking 2 2 10 20) db)) a R eq_refl)
    as [_ [_ [H _]]].
  exact H.
Defined.

(** X4. A booking that is not answered 201 stores nothing.  A body the
    schema refuses is answered 400 before any query, with the database
    and the id sequence untouched.  For a body the schema accepts, 409 is
    given exactly when the conflict query finds a row and leaves the
    database unchanged, and 400 means that a reference does not resolve:
    then every table is unchanged and only the id sequence has moved on by
    one.  The handler gives no other answer than 201, 409 and 400. *)
Theorem rejected_booking_stores_nothing (now : Timestamp)
  (raw : RawAppointment) (db : Db) :
  let r := fst (postAppointmentRoute now raw db) in
  let db' := snd (postAppointmentRoute now raw db) in
  (insertAppointmentSchema raw = None -> r = BadRequest /\ db' = db)
  /\ (forall body, insertAppointmentSchema raw = Some body ->
        (r = Conflict <->
         checkAppointmentConflicts db (ins_staffId body) (ins_patientId body)
           (ins_startTime body) (ins_endTime body) None = true)
        /\ (r = BadRequest ->
            db' = with_appointments db (appointments db)
                                    (appointments_id_seq db + 1)
            /\ referencesOk db (newAppointment now (appointments_id_seq db) body)
               = false)
        /\ (r = Conflict \/ r = BadRequest
            \/ r = Created (newAppointment now (appointments_id_seq db) body)))
  /\ (r = Conflict -> db' = db)
  /\ ((forall a, r <> Created a) -> appointments db' = appointments db).
Proof.
  unfold postAppointmentRoute.
  destruct (insertAppointmentSchema raw) as [body|] eqn:P; simpl.
  - unfold postAppointment, createAppointment.
    destruct (checkAppointmentConflicts db _ _ _ _ _) eqn:C; simpl.
    + split; [discriminate|split; [|split; [reflexivity|reflexivity]]].
      intros b Hb. inversion Hb; subst b. rewrite C.
      repeat split; auto; discriminate.
    + destruct (referencesOk db _) eqn:Rf; simpl.
      * split; [discriminate|split; [|split; [discriminate|]]].
        -- intros b Hb. inversion Hb; subst b. rewrite C.
           repeat split; auto; discriminate.
        -- intro H. exfalso. exact (H _ eq_refl).
      * split; [discriminate|split; [|split; [discriminate|reflexivity]]].
        intros b Hb. inversion Hb; subst b. rewrite C, Rf.
        repeat split; auto; discriminate.
  - split; [intros _; split; reflexivity|split; [discriminate|split; reflexivity]].
Qed.

Lemma rejected_booking_stores_nothing_witness :
  let asText :=
    mkRawAppointment (Some (JsInt 1)) (Some (JsInt 1)) (Some (JsInt 1))
      (Some (JsString "2024-01-01T10:00:00.000Z"))
      (Some (JsString "2024-01-01T10:30:00.000Z")) None None None in
  postAppointmentRoute 0 asText clinic = (BadRequest, clinic)
  /\ postAppointmentRoute 0 (sent (booking 1 9 10 20)) clinic
     = (BadRequest, with_appointments clinic [] 2).
Proof.
  intro asText. split.
  - destruct (rejected_booking_stores_nothing 0 asText clinic) as [H _].
    destruct (H eq_refl) as [E1 E2].
    rewrite (surjective_pairing (postAppointmentRoute 0 asText clinic)).
    rewrite E1, E2. reflexivity.
  - reflexivity.
Defined.

(** ** Modifying an appointment *)

(** X5. A [PUT] for an id that no stored appointment has is answered 200
    with an empty body, not 404, and changes nothing, whatever the request
    carries. *)
Theorem put_unknown_id_is_silent (now : Timestamp) (i : Z)
  (body : PartialAppointment) (db : Db) :
  getAppointment db i = None ->
  putAppointment now i body db = (Ok None, db).
Proof.
  intro G. unfold putAppointment, updateAppointment. rewrite G.
  destruct (changesSlot body); reflexivity.
Qed.

Lemma put_unknown_id_is_silent_witness :
  putAppointment 0 7 (moveTo 10 20) clinic = (Ok None, clinic).
Proof. apply put_unknown_id_is_silent. reflexivity. Defined.

Lemma find_id_replace (i j : Z) (new : Appointment) (l : list Appointment) :
  id new = i ->
  find (fun x => id x =? j) (replaceAppointment i new l)
  = if j =? i
    then match find (fun x => id x =? i) l with
         | Some _ => Some new
         | None => None
         end
    else find (fun x => id x =? j) l.
Proof.
  intro E. unfold replaceAppointment.
  destruct (Z.eqb_spec j i) as [Ej|Nj].
  - subst j. induction l as [|y tl IH]; simpl; [reflexivity|].
    destruct (Z.eqb_spec (id y) i) as [Ey|Ny].
    + rewrite E, Z.eqb_refl. reflexivity.
    + destruct (Z.eqb_spec (id y) i); [contradiction|exact IH].
  - induction l as [|y tl IH]; simpl; [reflexivity|].
    destruct (Z.eqb_spec (id y) i) as [Ey|Ny].
    + rewrite E. destruct (Z.eqb_spec i j); [congruence|].
      destruct (Z.eqb_spec (id y) j); [congruence|exact IH].
    + destruct (id y =? j); [reflexivity|exact IH].
Qed.

(** X6. Update then look up: when a [PUT] is answered 200 with a row, that
    row is what [getAppointment] returns afterwards; it keeps the id and
    the creation time of the old row and carries the clock value of the
    request as [updatedAt]; the ids in the table, their order and the
    sequence are unchanged and every other id resolves as before. *)
Theorem updated_row_is_found (now : Timestamp) (i : Z)
  (body : PartialAppointment) (db db' : Db) (new : Appointment) :
  putAppointment now i body db = (Ok (Some new), db') ->
  (exists old, getAppointment db i = Some old
               /\ new = setAppointment now body old
               /\ createdAt new = createdAt old)
  /\ id new = i /\ updatedAt new = Some now
  /\ getAppointment db' i = Some new
  /\ (forall j, j <> i -> getAppointment db' j = getAppointment db j)
  /\ map id (appointments db') = map id (appointments db)
  /\ appointments_id_seq db' = appointments_id_seq db.
Proof.
  unfold putAppointment, updateAppointment. intro H.
  destruct (if changesSlot body then _ else false); [discriminate|].
  destruct (getAppointment db i) as [old|] eqn:G; [|discriminate].
  destruct (referencesOkOnUpdate db old _); [|discriminate].
  inversion H; subst new db'; clear H.
  destruct (getAppointment_some _ _ _ G) as [_ Ei].
  set (new := setAppointment now body old).
  assert (En : id new = i) by exact Ei.
  split; [exists old; auto|].
  split; [exact En|split; [reflexivity|]].
  unfold getAppointment in *. simpl.
  split; [|split; [|split]].
  - rewrite find_id_replace by exact En. rewrite Z.eqb_refl, G. reflexivity.
  - intros j Hj. rewrite find_id_replace by exact En.
    destruct (Z.eqb_spec j i); [contradiction|reflexivity].
  - apply replaceAppointment_ids. exact En.
  - reflexivity.
Qed.

Lemma updated_row_is_found_witness :
  let db := snd (run [POST_appointments (sent (booking 1 1 10 20))] clinic) in
  let new := setAppointment 9 (changeStaff 2) (newAppointment 0 1 (booking 1 1 10 20)) in
  fst (putAppointment 9 1 (changeStaff 2) db) = Ok (Some new)
  /\ staffId new = 2
  /\ getAppointment (snd (putAppointment 9 1 (changeStaff 2) db)) 1 = Some new.
Proof.
  intros db new. split; [reflexivity|split; [reflexivity|]].
  destruct (updated_row_is_found 9 1 (changeStaff 2) db
              (snd (putAppointment 9 1 (changeStaff 2) db)) new eq_refl)
    as [_ [_ [_ [H _]]]].
  exact H.
Defined.

Lemma hasStaff_zero db : serialKeys db -> hasStaff db 0 = false.
Proof.
  intro K. destruct (hasStaff db 0) eqn:E; [|reflexivity].
  exfalso. exact (hasStaff_nonzero db 0 K E eq_refl).
Qed.

Lemma hasPatient_zero db : serialKeys db -> hasPatient db 0 = false.
Proof.
  intro K. destruct (hasPatient db 0) eqn:E; [|reflexivity].
  exfalso. exact (hasPatient_nonzero db 0 K E eq_refl).
Qed.

(** X7. The value 0 is falsy, so a [PUT] whose only change is [staffId: 0]
    or [patientId: 0] skips the conflict check; in a reachable state such a
    request still never gets through: sent for a stored appointment it is
    answered 409 or 400 and the database is unchanged. *)
Theorem zero_reference_never_stored (now : Timestamp) (i : Z)
  (body : PartialAppointment) (db : Db) (x : Appointment) :
  Reachable db ->
  getAppointment db i = Some x ->
  upd_staffId body = Some 0 \/ upd_patientId body = Some 0 ->
  (fst (putAppointment now i body db) = Conflict
   \/ fst (putAppointment now i body db) = BadRequest)
  /\ snd (putAppointment now i body db) = db.
Proof.
  intros R G Hz.
  destruct (Reachable_Inv db R) as [_ _ _ Hrefs _ _ Hkeys].
  destruct (getAppointment_some _ _ _ G) as [Hx _].
  assert (Hxr := proj1 (Forall_forall _ _) Hrefs x Hx). simpl in Hxr.
  unfold putAppointment, updateAppointment. rewrite G.
  destruct (if changesSlot body then _ else false); [simpl; auto|].
  assert (F : referencesOkOnUpdate db x (setAppointment now body x) = false).
  { unfold referencesOkOnUpdate. destruct Hz as [E|E].
    - assert (Es : staffId (setAppointment now body x) = 0)
        by (simpl; rewrite E; reflexivity).
      rewrite Es, (hasStaff_zero db Hkeys).
      replace (0 =? staffId x) with false by (symmetry; apply Z.eqb_neq; lia).
      cbn [orb]. rewrite andb_false_r. reflexivity.
    - assert (Ep : patientId (setAppointment now body x) = 0)
        by (simpl; rewrite E; reflexivity).
      rewrite Ep, (hasPatient_zero db Hkeys).
      replace (0 =? patientId x) with false by (symmetry; apply Z.eqb_neq; lia).
      reflexivity. }
  rewrite F. simpl. auto.
Qed.

Lemma zero_reference_never_stored_witness :
  let db := snd (run [POST_appointments (sent (booking 1 1 10 20))] clinic) in
  let body := mkPartialAppointment None (Some 0) None None None None None None in
  changesSlot body = false
  /\ putAppointment 0 1 body db = (BadRequest, db).
Proof.
  intros db body. split; [reflexivity|].
  assert (R : Reachable db) by (apply Reachable_run; exact Reachable_clinic).
  destruct (zero_reference_never_stored 0 1 body db
              (newAppointment 0 1 (booking 1 1 10 20)) R eq_refl
              (or_introl eq_refl)) as [_ E].
  reflexivity.
Defined.

(** ** Deleting an appointment *)

Lemma filter_id_absent (l : list Appointment) (i : Z) :
  find (fun x => id x =? i) l = None ->
  filter (fun a => negb (id a =? i)) l = l.
Proof.
  induction l as [|y tl IH]; simpl; [reflexivity|].
  destruct (id y =? i); [discriminate|]. simpl. intro H. rewrite IH by exact H.
  reflexivity.
Qed.

Lemma find_id_filter (l : list Appointment) (i j : Z) :
  find (fun x => id x =? j) (filter (fun a => negb (id a =? i)) l)
  = if j =? i then None else find (fun x => id x =? j) l.
Proof.
  induction l as [|y tl IH]; simpl.
  - destruct (j =? i); reflexivity.
  - destruct (Z.eqb_spec (id y) i) as [Ey|Ny]; simpl.
    + rewrite IH. destruct (Z.eqb_spec j i) as [Ej|Nj]; [reflexivity|].
      destruct (Z.eqb_spec (id y) j); [congruence|reflexivity].
    + destruct (Z.eqb_spec (id y) j) as [Ej|Nj].
      * destruct (Z.eqb_spec j i); [congruence|reflexivity].
      * exact IH.
Qed.

(** X8. [DELETE /api/appointments/:id] is a hard delete answered 204 in
    every case: afterwards the id resolves to nothing, every other id
    resolves as before, the other tables and the sequence are untouched;
    deleting an id that is not stored changes nothing, so deleting twice is
    the same as deleting once. *)
Theorem delete_appointment_removes_row (i : Z) (db : Db) :
  fst (deleteAppointmentRoute i db) = NoContent
  /\ getAppointment (deleteAppointment i db) i = None
  /\ (forall j, j <> i ->
        getAppointment (deleteAppointment i db) j = getAppointment db j)
  /\ (getAppointment db i = None -> deleteAppointment i db = db)
  /\ deleteAppointment i (deleteAppointment i db) = deleteAppointment i db
  /\ deleteAppointment i db
     = with_appointments db (appointments (deleteAppointment i db))
                         (appointments_id_seq db).
Proof.
  assert (Gone : getAppointment (deleteAppointment i db) i = None).
  { unfold getAppointment. simpl. rewrite find_id_filter, Z.eqb_refl. reflexivity. }
  assert (Same : forall d, getAppointment d i = None -> deleteAppointment i d = d).
  { intros d G. unfold deleteAppointment.
    rewrite filter_id_absent by exact G. destruct d; reflexivity. }
  split; [reflexivity|split; [exact Gone|split; [|split; [|split]]]].
  - intros j Hj. unfold getAppointment. simpl. rewrite find_id_filter.
    destruct (Z.eqb_spec j i); [contradiction|reflexivity].
  - apply Same.
  - apply Same. exact Gone.
  - reflexivity.
Qed.

Lemma delete_appointment_removes_row_witness :
  let db := snd (run [POST_appointments (sent (booking 1 1 10 20));
                      POST_appointments (sent (booking 2 2 10 20))] clinic) in
  map id (appointments (deleteAppointment 1 db)) = [2]
  /\ deleteAppointment 5 db = db.
Proof.
  intro db. split; [reflexivity|].
  destruct (delete_appointment_removes_row 5 db) as [_ [_ [_ [H _]]]].
  apply H. reflexivity.
Defined.

Lemma filter_drop_last (l : list Appointment) (a : Appointment) :
  Forall (fun x => id x < id a) l ->
  filter (fun x => negb (id x =? id a)) (l ++ [a]) = l.
Proof.
  induction 1 as [|y tl Hy _ IH]; simpl.
  - rewrite Z.eqb_refl. reflexivity.
  - destruct (Z.eqb_spec (id y) (id a)); [lia|]. simpl. rewrite IH. reflexivity.
Qed.

(** X9. Deleting frees the slot (cancelling does not): in a reachable
    state, when a booking was answered 201 and its row is then deleted, the
    table is back to what it was and the same booking is answered 201
    again, under the next id. *)
Theorem delete_then_rebook (now now' : Timestamp) (body : InsertAppointment)
  (db db1 : Db) (a : Appointment) :
  Reachable db ->
  postAppointment now body db = (Created a, db1) ->
  let db2 := snd (deleteAppointmentRoute (id a) db1) in
  appointments db2 = appointments db
  /\ fst (postAppointment now' body db2)
     = Created (newAppointment now' (id a + 1) body).
Proof.
  intros R H db2.
  destruct (postAppointment_created _ _ _ _ _ H) as [Ea [Ed [C Rf]]].
  destruct (Reachable_Inv db R) as [_ Hids _ _ _ _ _].
  assert (Eid : id a = appointments_id_seq db) by (rewrite Ea; reflexivity).
  assert (E2 : appointments db2 = appointments db).
  { unfold db2. rewrite Ed. simpl. apply filter_drop_last.
    eapply Forall_impl; [|exact Hids]. simpl. intros; lia. }
  split; [exact E2|].
  unfold postAppointment.
  assert (C2 : checkAppointmentConflicts db2 (ins_staffId body) (ins_patientId body)
                 (ins_startTime body) (ins_endTime body) None = false).
  { rewrite checkAppointmentConflicts_existsb, E2,
      <- checkAppointmentConflicts_existsb. exact C. }
  rewrite C2. unfold createAppointment.
  assert (S2 : appointments_id_seq db2 = id a + 1)
    by (unfold db2; rewrite Ed, Eid; reflexivity).
  rewrite S2.
  assert (Rf2 : referencesOk db2 (newAppointment now' (id a + 1) body) = true).
  { unfold db2. rewrite Ed. rewrite Ea in Rf. exact Rf. }
  rewrite Rf2. reflexivity.
Qed.

Lemma delete_then_rebook_witness :
  let db1 := snd (postAppointment 0 (booking 1 1 10 20) clinic) in
  fst (postAppointment 4 (booking 1 1 10 20) db1) = Conflict
  /\ fst (postAppointment 4 (booking 1 1 10 20)
            (snd (deleteAppointmentRoute 1 db1)))
     = Created (newAppointment 4 2 (booking 1 1 10 20)).
Proof.
  intro db1. split; [reflexivity|].
  apply (delete_then_rebook 0 4 (booking 1 1 10 20) clinic db1
           (newAppointment 0 1 (booking 1 1 10 20)) Reachable_clinic eq_refl).
Defined.

(** ** Range queries *)

Lemma filter_none {A : Type} (f : A -> bool) (l : list A) :
  (forall x, In x l -> f x = false) -> filter f l = [].
Proof.
  induction l as [|y tl IH]; simpl; intro H; [reflexivity|].
  rewrite (H y (or_introl eq_refl)). apply IH. intros x Hx. apply H. right. exact Hx.
Qed.

(** X10. A range whose end lies before its start selects nothing:
    [getAppointmentsByDateRange], and with it [GET /api/appointments]
    called with that range, returns the empty list. *)
Theorem inverted_range_is_empty (db : Db) (from to : Timestamp)
  (s p : option Z) :
  to < from ->
  getAppointmentsByDateRange db from to = []
  /\ getAppointments (mkQuery (Some from) (Some to) s p) db = [].
Proof.
  intro H.
  assert (E : getAppointmentsByDateRange db from to = []).
  { unfold getAppointmentsByDateRange. rewrite filter_none; [reflexivity|].
    intros x _. apply andb_false_iff.
    destruct (Z.leb_spec from (startTime x)); [right; apply Z.leb_gt; lia|left; reflexivity]. }
  split; [exact E|exact E].
Qed.

Lemma inverted_range_is_empty_witness :
  let db := snd (run [POST_appointments (sent (booking 1 1 10 20))] clinic) in
  getAppointments (mkQuery (Some 0) (Some 50) None None) db
  = [newAppointment 0 1 (booking 1 1 10 20)]
  /\ getAppointments (mkQuery (Some 50) (Some 0) None None) db = [].
Proof.
  intro db. split; [reflexivity|].
  apply (inverted_range_is_empty db 50 0 None None). lia.
Defined.

(** ** Soft deletion, continued *)

Section SoftDeleteLookup.
Context {Row : Type} (key : Row -> Z) (off : Row -> Row).
Hypothesis key_off : forall r, key (off r) = key r.
Hypothesis off_off : forall r, off (off r) = off r.

Lemma softDelete_twice (i : Z) (l : list Row) :
  map (fun r => if key r =? i then off r else r)
      (map (fun r => if key r =? i then off r else r) l)
  = map (fun r => if key r =? i then off r else r) l.
Proof.
  rewrite map_map. apply map_ext. intro r.
  destruct (Z.eqb_spec (key r) i) as [E|N].
  - rewrite key_off. destruct (Z.eqb_spec (key r) i); [apply off_off|contradiction].
  - destruct (Z.eqb_spec (key r) i); [contradiction|reflexivity].
Qed.

Lemma softDelete_unknown (i : Z) (l : list Row) :
  existsb (fun r => key r =? i) l = false ->
  map (fun r => if key r =? i then off r else r) l = l.
Proof.
  induction l as [|r tl IH]; simpl; [reflexivity|].
  rewrite orb_false_iff. intros [E H]. rewrite E, IH by exact H. reflexivity.
Qed.

Lemma softDelete_find (i j : Z) (l : list Row) :
  find (fun r => key r =? j) (map (fun r => if key r =? i then off r else r) l)
  = if j =? i then option_map off (find (fun r => key r =? i) l)
    else find (fun r => key r =? j) l.
Proof.
  destruct (Z.eqb_spec j i) as [Ej|Nj].
  - subst j. induction l as [|r tl IH]; simpl; [reflexivity|].
    destruct (Z.eqb_spec (key r) i) as [E|N].
    + rewrite key_off. destruct (Z.eqb_spec (key r) i); [reflexivity|contradiction].
    + destruct (Z.eqb_spec (key r) i); [contradiction|exact IH].
  - induction l as [|r tl IH]; simpl; [reflexivity|].
    destruct (Z.eqb_spec (key r) i) as [E|N].
    + rewrite key_off. destruct (Z.eqb_spec (key r) j); [congruence|exact IH].
    + destruct (key r =? j); [reflexivity|exact IH].
Qed.

Lemma softDelete_existsb (i j : Z) (l : list Row) :
  existsb (fun r => key r =? j) (map (fun r => if key r =? i then off r else r) l)
  = existsb (fun r => key r =? j) l.
Proof.
  induction l as [|r tl IH]; simpl; [reflexivity|].
  rewrite IH. destruct (key r =? i); [rewrite key_off|]; reflexivity.
Qed.

End SoftDeleteLookup.

Lemma getStaff_deleteStaff i j db :
  getStaff (deleteStaff i db) j
  = if j =? i then option_map deactivateStaff (getStaff db i) else getStaff db j.
Proof. unfold getStaff. simpl. apply (softDelete_find staff_id). reflexivity. Qed.

Lemma referencesOk_deleteStaff i db a :
  referencesOk (deleteStaff i db) a = referencesOk db a.
Proof.
  unfold referencesOk, hasStaff. simpl.
  rewrite (softDelete_existsb staff_id deactivateStaff) by reflexivity. reflexivity.
Qed.

Lemma referencesOk_deletePatient i db a :
  referencesOk (deletePatient i db) a = referencesOk db a.
Proof.
  unfold referencesOk, hasPatient. simpl.
  rewrite (softDelete_existsb patient_id deactivatePatient) by reflexivity. reflexivity.
Qed.

Lemma referencesOk_deleteService i db a :
  referencesOk (deleteService i db) a = referencesOk db a.
Proof.
  unfold referencesOk, hasService. simpl.
  rewrite (softDelete_existsb service_id deactivateService) by reflexivity. reflexivity.
Qed.

(** X11. Booking does not look at [isActive]: after a staff member, a
    patient or a service has been soft-deleted, every booking request gets
    the answer it would have got before, so appointments can still be
    booked with a deleted staff member, for a deleted patient or for a
    deleted service. *)
Theorem deleted_entities_stay_bookable (now : Timestamp)
  (body : InsertAppointment) (i : Z) (db : Db) :
  fst (postAppointment now body (deleteStaff i db))
  = fst (postAppointment now body db)
  /\ fst (postAppointment now body (deletePatient i db))
     = fst (postAppointment now body db)
  /\ fst (postAppointment now body (deleteService i db))
     = fst (postAppointment now body db).
Proof.
  unfold postAppointment, createAppointment.
  split; [|split].
  - change (checkAppointmentConflicts (deleteStaff i db))
      with (checkAppointmentConflicts db).
    change (appointments_id_seq (deleteStaff i db)) with (appointments_id_seq db).
    rewrite referencesOk_deleteStaff.
    destruct (checkAppointmentConflicts db _ _ _ _ _); [reflexivity|].
    destruct (referencesOk db _); reflexivity.
  - change (checkAppointmentConflicts (deletePatient i db))
      with (checkAppointmentConflicts db).
    change (appointments_id_seq (deletePatient i db)) with (appointments_id_seq db).
    rewrite referencesOk_deletePatient.
    destruct (checkAppointmentConflicts db _ _ _ _ _); [reflexivity|].
    destruct (referencesOk db _); reflexivity.
  - change (checkAppointmentConflicts (deleteService i db))
      with (checkAppointmentConflicts db).
    change (appointments_id_seq (deleteService i db)) with (appointments_id_seq db).
    rewrite referencesOk_deleteService.
    destruct (checkAppointmentConflicts db _ _ _ _ _); [reflexivity|].
    destruct (referencesOk db _); reflexivity.
Qed.

(** X12. Soft deletes compose harmlessly: deleting a staff member, a
    patient or a service twice is the same as deleting once, deleting an
    id that has no row changes nothing, and a deleted staff member is still
    returned by [getStaff], as the same row with [isActive] false. *)
Theorem soft_delete_is_idempotent (i : Z) (db : Db) :
  (deleteStaff i (deleteStaff i db) = deleteStaff i db
   /\ deletePatient i (deletePatient i db) = deletePatient i db
   /\ deleteService i (deleteService i db) = deleteService i db)
  /\ ((hasStaff db i = false -> deleteStaff i db = db)
      /\ (hasPatient db i = false -> deletePatient i db = db)
      /\ (hasService db i = false -> deleteService i db = db))
  /\ getStaff (deleteStaff i db) i = option_map deactivateStaff (getStaff db i)
  /\ (forall j, j <> i -> getStaff (deleteStaff i db) j = getStaff db j).
Proof.
  split; [|split; [|split]].
  - split; [|split].
    + unfold deleteStaff, with_staff. simpl.
      rewrite (softDelete_twice staff_id deactivateStaff); reflexivity.
    + unfold deletePatient, with_patients. simpl.
      rewrite (softDelete_twice patient_id deactivatePatient); reflexivity.
    + unfold deleteService, with_services. simpl.
      rewrite (softDelete_twice service_id deactivateService); reflexivity.
  - split; [|split]; intro H.
    + unfold deleteStaff, with_staff.
      rewrite (softDelete_unknown staff_id deactivateStaff) by exact H.
      destruct db; reflexivity.
    + unfold deletePatient, with_patients.
      rewrite (softDelete_unknown patient_id deactivatePatient) by exact H.
      destruct db; reflexivity.
    + unfold deleteService, with_services.
      rewrite (softDelete_unknown service_id deactivateService) by exact H.
      destruct db; reflexivity.
  - rewrite getStaff_deleteStaff, Z.eqb_refl. reflexivity.
  - intros j Hj. rewrite getStaff_deleteStaff.
    destruct (Z.eqb_spec j i); [contradiction|reflexivity].
Qed.

Lemma soft_delete_is_idempotent_witness :
  deleteStaff 9 clinic = clinic
  /\ option_map staff_isActive (getStaff (deleteStaff 1 clinic) 1)
     = Some (Some false).
Proof.
  split.
  - destruct (soft_delete_is_idempotent 9 clinic) as [_ [[H _] _]].
    apply H. reflexivity.
  - reflexivity.
Defined.

(** ** The availability report *)

Lemma getStaff_none_iff db i : getStaff db i = None <-> hasStaff db i = false.
Proof.
  unfold getStaff, hasStaff. induction (staff db) as [|s l IH]; simpl.
  - tauto.
  - destruct (staff_id s =? i); simpl; [split; discriminate|exact IH].
Qed.

(** X13. [GET /api/staff/:id/availability] answers 404 exactly when no
    staff row has the id. Otherwise it reports the stored template as it
    is, every exclusion of that staff member (whatever its dates) ordered
    by start time, and exactly the appointments of that staff member whose
    start lies between [date] and 24 hours later, both ends included. A
    soft-deleted staff member gets the same report as before. *)
Theorem availability_report (i : Z) (date : Timestamp) (db : Db) :
  (getStaffAvailability i date db = None <-> hasStaff db i = false)
  /\ (forall r, getStaffAvailability i date db = Some r ->
        option_map staff_availability (getStaff db i) = Some (availability r)
        /\ (forall x, In x (exclusions r) <->
                      In x (staffAvailabilityExclusions db) /\ excl_staffId x = i)
        /\ Sorted (fun x y => excl_startTime x <= excl_startTime y) (exclusions r)
        /\ (forall a, In a (existingAppointments r) <->
                      In a (appointments db) /\ staffId a = i
                      /\ date <= startTime a <= date + dayMs))
  /\ getStaffAvailability i date (deleteStaff i db) = getStaffAvailability i date db.
Proof.
  split; [|split].
  - unfold getStaffAvailability. rewrite <- getStaff_none_iff.
    destruct (getStaff db i); split; congruence.
  - intros r H. unfold getStaffAvailability in H.
    destruct (getStaff db i) as [s|]; [|discriminate].
    inversion H; subst r; clear H. simpl.
    split; [reflexivity|split; [|split]].
    + intro x. unfold getStaffExclusions.
      rewrite orderBy_In, filter_In, Z.eqb_eq. tauto.
    + apply orderBy_asc_sorted.
    + intro a. unfold getAppointmentsByDateRange.
      rewrite filter_In, orderBy_In, filter_In, andb_true_iff, !Z.leb_le, Z.eqb_eq.
      tauto.
  - unfold getStaffAvailability. rewrite getStaff_deleteStaff, Z.eqb_refl.
    destruct (getStaff db i); reflexivity.
Qed.

Lemma availability_report_witness :
  let db := snd (run [POST_appointments (sent (booking 1 1 dayMs (dayMs + 30)));
                      POST_appointments (sent (booking 2 2 10 20))] clinic) in
  option_map (fun r => map id (existingAppointments r))
             (getStaffAvailability 1 0 db) = Some [1]
  /\ getStaffAvailability 9 0 db = None.
Proof.
  intro db. split; [reflexivity|].
  apply (proj1 (availability_report 9 0 db)). reflexivity.
Defined.

(** ** The booking form *)

Lemma durationOr60_positive (svc : option Service) :
  (forall s, svc = Some s -> 0 <= service_duration s) ->
  0 < durationOr60 svc.
Proof.
  intro H. destruct svc as [s|]; simpl; [|lia].
  specialize (H s eq_refl).
  destruct (Z.eqb_spec (service_duration s) 0); lia.
Qed.

(** X14. What the booking form sends.  The appointment it asks for has
    status [scheduled] and no recurrence rule, and when no listed service
    has a negative duration its interval is never empty (a missing
    service or a duration of 0 counts as 60 minutes).  But the request
    carries the two times as ISO strings, which the insert schema, wanting
    [Date]s, refuses: whatever the form holds, the server answers its
    request 400 and stores nothing. *)
Theorem booking_form_request (toISOString : Timestamp -> string)
  (servicesList : list Service) (data : BookingForm) :
  Forall (fun s => 0 <= service_duration s) servicesList ->
  let body := onSubmit servicesList data in
  let request := onSubmitRequest toISOString servicesList data in
  ins_status body = Some "scheduled"%string
  /\ ins_recurringRuleId body = None
  /\ ins_startTime body < ins_endTime body
  /\ raw_startTime request = Some (JsString (toISOString (ins_startTime body)))
  /\ raw_endTime request = Some (JsString (toISOString (ins_endTime body)))
  /\ insertAppointmentSchema request = None
  /\ (forall now db, postAppointmentRoute now request db = (BadRequest, db)).
Proof.
  intros Hd body request.
  assert (Hpos : ins_startTime body < ins_endTime body).
  { unfold body, onSubmit. simpl.
    assert (0 < durationOr60
                  (find (fun s => service_id s =? form_serviceId data) servicesList)).
    { apply durationOr60_positive. intros s Hs. apply find_some in Hs.
      exact (proj1 (Forall_forall _ _) Hd s (proj1 Hs)). }
    lia. }
  assert (P : insertAppointmentSchema request = None).
  { unfold insertAppointmentSchema, request, onSubmitRequest. simpl.
    destruct (int4 (form_patientId data)), (int4 (form_staffId data)),
      (int4 (form_serviceId data)); reflexivity. }
  repeat split; try reflexivity; try exact Hpos; try exact P.
  intros now db. unfold postAppointmentRoute. rewrite P. reflexivity.
Qed.

Lemma booking_form_request_witness :
  let form := mkBookingForm 1 1 1 600000 None in
  ins_startTime (onSubmit (services clinic) form)
  < ins_endTime (onSubmit (services clinic) form)
  /\ postAppointmentRoute 0
       (onSubmitRequest (fun _ => "2024-01-01T10:00:00.000Z"%string)
                        (services clinic) form) clinic
     = (BadRequest, clinic)
  /\ fst (postAppointmentRoute 0 (sent (onSubmit (services clinic) form)) clinic)
     = Created (newAppointment 0 1 (onSubmit (services clinic) form)).
Proof.
  intro form.
  assert (H : Forall (fun s => 0 <= service_duration s) (services clinic)).
  { simpl. repeat constructor. simpl. lia. }
  destruct (booking_form_request (fun _ => "2024-01-01T10:00:00.000Z"%string)
              (services clinic) form H) as [_ [_ [P [_ [_ [_ Q]]]]]].
  split; [exact P|split; [apply Q|reflexivity]].
Defined.

(** ** Who may list and delete staff and services *)

Lemma NoDup_key_unique {A : Type} (key : A -> Z) (l : list A) (a b : A) :
  NoDup (map key l) -> In a l -> In b l -> key a = key b -> a = b.
Proof.
  induction l as [|x tl IH]; simpl; intros Hnd Ha Hb E; [contradiction|].
  inversion Hnd as [|? ? Hnotin Hnd']; subst.
  destruct Ha as [->|Ha]; destruct Hb as [->|Hb].
  - reflexivity.
  - exfalso. apply Hnotin. rewrite E. apply in_map. exact Hb.
  - exfalso. apply Hnotin. rewrite <- E. apply in_map. exact Ha.
  - apply IH; assumption.
Qed.

Lemma requireRole_doctor u :
  user_role u = "doctor"%string -> requireRole ["admin"; "doctor"]%string u = true.
Proof. intro E. unfold requireRole. rewrite E. reflexivity. Qed.

(** X15. Deleting staff and services is gated by role and ownership. A
    caller who is neither admin nor doctor gets 403 from
    [DELETE /api/staff/:id], and anyone but an admin gets 403 from
    [DELETE /api/services/:id], with nothing changed. A doctor gets 403,
    with nothing changed, for a staff id that does not exist or whose row
    belongs to someone else; and, staff ids being unique, no request of a
    doctor ever changes a staff row that is not the doctor's own. *)
Theorem delete_routes_are_gated (u : User) (i : Z) (db : Db) :
  (user_role u <> "admin"%string -> user_role u <> "doctor"%string ->
   deleteStaffRoute u i db = (R403, db))
  /\ (user_role u <> "admin"%string -> deleteServiceRoute u i db = (R403, db))
  /\ (user_role u = "admin"%string ->
      deleteStaffRoute u i db = (R204, deleteStaff i db)
      /\ deleteServiceRoute u i db = (R204, deleteService i db))
  /\ (user_role u = "doctor"%string ->
      (forall s, getStaff db i = Some s -> staff_userId s <> Some (user_id u) ->
                 deleteStaffRoute u i db = (R403, db))
      /\ (getStaff db i = None -> deleteStaffRoute u i db = (R403, db))
      /\ (NoDup (map staff_id (staff db)) ->
          forall s, In s (staff db) -> staff_userId s <> Some (user_id u) ->
                    In s (staff (snd (deleteStaffRoute u i db))))).
Proof.
  assert (NotOwned : forall s, staff_userId s <> Some (user_id u) -> ownedBy u s = false).
  { intros s H. unfold ownedBy. destruct (staff_userId s) as [o|]; [|reflexivity].
    destruct (Z.eqb_spec o (user_id u)); [congruence|reflexivity]. }
  split; [|split; [|split]].
  - intros Ha Hd. unfold deleteStaffRoute, requireRole. simpl.
    apply String.eqb_neq in Ha. apply String.eqb_neq in Hd.
    rewrite Ha, Hd. reflexivity.
  - intro Ha. unfold deleteServiceRoute, requireRole. simpl.
    apply String.eqb_neq in Ha. rewrite Ha. reflexivity.
  - intro E. unfold deleteStaffRoute, deleteServiceRoute, requireRole.
    rewrite E. split; reflexivity.
  - intro E. split; [|split].
    + intros s G Hs. unfold deleteStaffRoute.
      rewrite (requireRole_doctor u E), E, G, (NotOwned s Hs). reflexivity.
    + intro G. unfold deleteStaffRoute.
      rewrite (requireRole_doctor u E), E, G. reflexivity.
    + intros Hnd s Hin Hs. unfold deleteStaffRoute.
      rewrite (requireRole_doctor u E), E. simpl.
      destruct (getStaff db i) as [e|] eqn:G; [|exact Hin].
      destruct (ownedBy u e) eqn:O; [|exact Hin].
      simpl. unfold getStaff in G. apply find_some in G. destruct G as [He Ee].
      apply Z.eqb_eq in Ee.
      assert (Ns : staff_id s <> i).
      { intro Es. assert (s = e).
        { apply (NoDup_key_unique staff_id (staff db)); try assumption. congruence. }
        subst e. rewrite (NotOwned s Hs) in O. discriminate. }
      apply in_map_iff. exists s. split; [|exact Hin].
      destruct (Z.eqb_spec (staff_id s) i); [contradiction|reflexivity].
Qed.

Lemma delete_routes_are_gated_witness :
  deleteStaffRoute drHouse 2 practice = (R403, practice)
  /\ fst (deleteStaffRoute drHouse 1 practice) = R204
  /\ In foreignStaff (staff (snd (deleteStaffRoute drHouse 1 practice))).
Proof.
  destruct (delete_routes_are_gated drHouse 2 practice) as [_ [_ [_ H2]]].
  destruct (delete_routes_are_gated drHouse 1 practice) as [_ [_ [_ H1]]].
  split; [|split].
  - destruct (H2 eq_refl) as [H _].
    apply (H foreignStaff); [reflexivity|discriminate].
  - reflexivity.
  - destruct (H1 eq_refl) as [_ [_ H]].
    apply H.
    + simpl. repeat constructor; simpl; intuition discriminate.
    + simpl. right. left. reflexivity.
    + discriminate.
Defined.

(** X16. [GET /api/staff] shows an admin every active staff member, shows
    a doctor exactly the active staff members whose [userId] is the
    doctor's own id, and answers 403 to any other role. *)
Theorem staff_list_by_role (u : User) (db : Db) :
  (user_role u = "admin"%string ->
   getStaffRoute u db = R200List (getAllStaff db))
  /\ (user_role u = "doctor"%string ->
      exists l, getStaffRoute u db = R200List l
                /\ forall s, In s l <->
                     In s (staff db) /\ staff_isActive s = Some true
                     /\ staff_userId s = Some (user_id u))
  /\ (user_role u <> "admin"%string -> user_role u <> "doctor"%string ->
      getStaffRoute u db = R403).
Proof.
  unfold getStaffRoute. split; [|split].
  - intros ->. reflexivity.
  - intros E. rewrite E. simpl. eexists. split; [reflexivity|].
    intro s. unfold getAllStaff.
    rewrite filter_In, orderBy_In, filter_In, isTrue_iff.
    assert (O : ownedBy u s = true <-> staff_userId s = Some (user_id u)).
    { unfold ownedBy. destruct (staff_userId s) as [o|].
      - rewrite Z.eqb_eq. split; congruence.
      - split; discriminate. }
    rewrite O. tauto.
  - intros Ha Hd. apply String.eqb_neq in Ha. apply String.eqb_neq in Hd.
    rewrite Ha, Hd. reflexivity.
Qed.

Lemma staff_list_by_role_witness :
  exists l, getStaffRoute drHouse practice = R200List l
            /\ In ownStaff l /\ ~ In foreignStaff l.
Proof.
  destruct (proj1 (proj2 (staff_list_by_role drHouse practice)) eq_refl)
    as [l [E H]].
  exists l. split; [exact E|split].
  - apply H. simpl. repeat split. left. reflexivity.
  - intro Hin. apply H in Hin. destruct Hin as [_ [_ Ho]]. discriminate.
Defined.

(** ** Patients: create, update, delete *)

Lemma find_patient_app (l : list Patient) (p : Patient) (j : Z) :
  find (fun x => patient_id x =? j) (l ++ [p])
  = match find (fun x => patient_id x =? j) l with
    | Some x => Some x
    | None => if patient_id p =? j then Some p else None
    end.
Proof.
  induction l as [|y tl IH]; simpl; [reflexivity|].
  destruct (patient_id y =? j); [reflexivity|exact IH].
Qed.

Lemma find_patient_fresh (l : list Patient) (j : Z) :
  Forall (fun p => patient_id p < j) l ->
  find (fun x => patient_id x =? j) l = None.
Proof.
  induction 1 as [|y tl Hy _ IH]; simpl; [reflexivity|].
  destruct (Z.eqb_spec (patient_id y) j); [lia|exact IH].
Qed.

(** X17. Creating a patient: when the stored patient ids lie below the
    sequence, [POST /api/patients] answers 201 with a row under a fresh
    id, [getPatient] then finds that row and resolves every other id as
    before, the new patient is listed by [getAllPatients] unless the
    request set [isActive] to false or null (active is the default), the
    appointments are untouched and the stored ids again lie below the
    sequence. *)
Theorem created_patient_is_found (now : Timestamp) (body : InsertPatient)
  (sv : Server) :
  Forall (fun p => patient_id p < patients_id_seq sv) (patients (server_db sv)) ->
  let p := newPatient now (patients_id_seq sv) body in
  let sv' := snd (postPatient now body sv) in
  fst (postPatient now body sv) = R201 p
  /\ getPatient (server_db sv) (patient_id p) = None
  /\ getPatient (server_db sv') (patient_id p) = Some p
  /\ (forall j, j <> patient_id p ->
        getPatient (server_db sv') j = getPatient (server_db sv) j)
  /\ (In p (getAllPatients (server_db sv')) <->
      insp_isActive body = None \/ insp_isActive body = Some (Some true))
  /\ appointments (server_db sv') = appointments (server_db sv)
  /\ Forall (fun q => patient_id q < patients_id_seq sv')
            (patients (server_db sv')).
Proof.
  intros Hids p sv'.
  assert (Fresh : getPatient (server_db sv) (patient_id p) = None)
    by (apply find_patient_fresh; exact Hids).
  split; [reflexivity|split; [exact Fresh|split; [|split; [|split; [|split]]]]].
  - unfold getPatient in *.
    change (patients (server_db sv')) with (patients (server_db sv) ++ [p]).
    rewrite find_patient_app, Fresh, Z.eqb_refl. reflexivity.
  - intros j Hj. unfold getPatient.
    change (patients (server_db sv')) with (patients (server_db sv) ++ [p]).
    rewrite find_patient_app.
    destruct (find _ (patients (server_db sv))); [reflexivity|].
    destruct (Z.eqb_spec (patient_id p) j); [congruence|reflexivity].
  - unfold getAllPatients. rewrite orderBy_In, filter_In, isTrue_iff. simpl.
    split.
    + intros [_ H]. destruct (insp_isActive body) as [[[|]|]|]; simpl in H;
        auto; discriminate.
    + intro H. split.
      * apply in_or_app. right. left. reflexivity.
      * destruct H as [-> | ->]; reflexivity.
  - reflexivity.
  - simpl. apply Forall_app. split.
    + eapply Forall_impl; [|exact Hids]. simpl. intros; lia.
    + constructor; [simpl; lia|constructor].
Qed.

Lemma created_patient_is_found_witness :
  let sv := mkServer clinic 5 in
  let body := mkInsertPatient "Tom" "Roe" None None None None None None None in
  In (newPatient 0 5 body)
     (getAllPatients (server_db (snd (postPatient 0 body sv)))).
Proof.
  intros sv body.
  assert (H : Forall (fun p => patient_id p < patients_id_seq sv)
                     (patients (server_db sv))).
  { simpl. repeat constructor; simpl; lia. }
  destruct (created_patient_is_found 0 body sv H) as [_ [_ [_ [_ [L _]]]]].
  apply L. left. reflexivity.
Defined.

(** X18. Updating a patient: [PUT /api/patients/:id] for an id without a
    row answers 200 with an empty body and changes nothing; for a stored
    patient it answers with the updated row, which keeps id and creation
    time and carries the clock value as [updatedAt]; that row is what
    [getPatient] returns afterwards, every other id resolves as before and
    no table but the patients is touched. *)
Theorem updated_patient_is_found (now : Timestamp) (i : Z)
  (body : PartialPatient) (db : Db) :
  (getPatient db i = None -> putPatient now i body db = (R200 None, db))
  /\ (forall p, getPatient db i = Some p ->
        let new := setPatient now body p in
        fst (putPatient now i body db) = R200 (Some new)
        /\ patient_id new = i
        /\ patient_createdAt new = patient_createdAt p
        /\ patient_updatedAt new = Some now
        /\ getPatient (snd (putPatient now i body db)) i = Some new)
  /\ (forall j, j <> i ->
        getPatient (snd (putPatient now i body db)) j = getPatient db j)
  /\ sameButPatients db (snd (putPatient now i body db)).
Proof.
  assert (Fst : fst (putPatient now i body db)
                = R200 (option_map (setPatient now body) (getPatient db i))).
  { unfold putPatient, updatePatient, getPatient. cbn [fst]. f_equal.
    rewrite (softDelete_find patient_id (setPatient now body)) by reflexivity.
    rewrite Z.eqb_refl. reflexivity. }
  assert (Snd : snd (putPatient now i body db)
                = with_patients db
                    (map (fun p => if patient_id p =? i
                                   then setPatient now body p else p)
                         (patients db)))
    by reflexivity.
  split; [|split; [|split]].
  - intro G. rewrite (surjective_pairing (putPatient now i body db)).
    rewrite Fst, Snd, G. simpl. f_equal.
    unfold with_patients.
    rewrite (softDelete_unknown patient_id (setPatient now body)).
    + destruct db; reflexivity.
    + unfold getPatient in G. clear -G.
      induction (patients db) as [|y tl IH]; simpl in *; [reflexivity|].
      destruct (patient_id y =? i); [discriminate|]. simpl. apply IH, G.
  - intros p G new. rewrite Fst, G. simpl.
    split; [reflexivity|].
    unfold getPatient in G. assert (G' := G). apply find_some in G'.
    destruct G' as [_ Ei]. apply Z.eqb_eq in Ei.
    split; [exact Ei|split; [reflexivity|split; [reflexivity|]]].
    unfold getPatient. simpl.
    rewrite (softDelete_find patient_id (setPatient now body)) by reflexivity.
    rewrite Z.eqb_refl, G. reflexivity.
  - intros j Hj. rewrite Snd. unfold getPatient. simpl.
    rewrite (softDelete_find patient_id (setPatient now body)) by reflexivity.
    destruct (Z.eqb_spec j i); [contradiction|reflexivity].
  - rewrite Snd. repeat split.
Qed.

Lemma updated_patient_is_found_witness :
  putPatient 3 9 (mkPartialPatient (Some "Zed"%string) None None None None None
                                   None None None) clinic
  = (R200 None, clinic).
Proof.
  apply (proj1 (updated_patient_is_found 3 9 _ clinic)). reflexivity.
Defined.

(** X19. A soft delete can be undone through the update route: after a
    stored patient has been deleted and then updated with [isActive: true],
    [getPatient] returns the original row with [isActive] true and a new
    [updatedAt], and the patient is listed by [getAllPatients] again. *)
Theorem deleted_patient_can_be_reactivated (now : Timestamp) (i : Z) (db : Db)
  (p : Patient) :
  getPatient db i = Some p ->
  let db1 := snd (deletePatientRoute i db) in
  let db2 := snd (putPatient now i reactivate db1) in
  let p' := setPatient now reactivate p in
  (forall q, In q (getAllPatients db1) -> patient_id q <> i)
  /\ getPatient db2 i = Some p'
  /\ patient_isActive p' = Some true
  /\ In p' (getAllPatients db2).
Proof.
  intros G db1 db2 p'.
  assert (G1 : getPatient db1 i = Some (deactivatePatient p)).
  { unfold db1, getPatient. simpl.
    rewrite (softDelete_find patient_id deactivatePatient) by reflexivity.
    rewrite Z.eqb_refl. unfold getPatient in G. rewrite G. reflexivity. }
  destruct (updated_patient_is_found now i reactivate db1) as [_ [H _]].
  destruct (H _ G1) as [_ [_ [_ [_ G2]]]].
  assert (E : setPatient now reactivate (deactivatePatient p) = p') by reflexivity.
  rewrite E in G2. fold db2 in G2.
  split; [|split; [exact G2|split; [reflexivity|]]].
  - intros q Hq. unfold db1, getAllPatients in Hq. rewrite orderBy_In in Hq.
    apply (softDelete_gone patient_id patient_isActive deactivatePatient) in Hq;
      [exact Hq|reflexivity].
  - unfold getAllPatients. rewrite orderBy_In, filter_In. split; [|reflexivity].
    unfold getPatient in G2. apply find_some in G2. exact (proj1 G2).
Qed.

Lemma deleted_patient_can_be_reactivated_witness :
  let db1 := snd (deletePatientRoute 1 clinic) in
  let db2 := snd (putPatient 8 1 reactivate db1) in
  map patient_id (getAllPatients db1) = [2; 3; 4]
  /\ In (setPatient 8 reactivate (mkPatientRow 1 "Pia")) (getAllPatients db2).
Proof.
  intros db1 db2. split; [reflexivity|].
  destruct (deleted_patient_can_be_reactivated 8 1 clinic (mkPatientRow 1 "Pia")
              eq_refl) as [_ [_ [_ H]]].
  exact H.
Defined.

(** ** Billing records *)

Lemma billingConditions_spec (f : BillingFilters) (r : BillingRecord) :
  billingConditions f r = true <->
  (forall p, f_patientId f = Some p -> p <> 0 -> bill_patientId r = p)
  /\ (forall s, f_serviceId f = Some s -> s <> 0 -> bill_serviceId r = s)
  /\ (forall d, f_startDate f = Some d -> d <= bill_billingDate r)
  /\ (forall d, f_endDate f = Some d -> bill_billingDate r <= d).
Proof.
  unfold billingConditions. rewrite !andb_true_iff.
  assert (N : forall (o : option Z) (v : Z),
             (if truthyNum o then v =? orElse o 0 else true) = true
             <-> (forall p, o = Some p -> p <> 0 -> v = p)).
  { intros o v. destruct o as [p|]; simpl.
    - destruct (Z.eqb_spec p 0) as [Z0|NZ]; simpl.
      + split; [intros _ q Hq Hn; inversion Hq; subst; contradiction|reflexivity].
      + rewrite Z.eqb_eq. split.
        * intros H q Hq _. inversion Hq; subst. reflexivity.
        * intro H. apply H; auto.
    - split; [intros _ q Hq; discriminate|reflexivity]. }
  rewrite !N.
  assert (D1 : match f_startDate f with
               | Some d => d <=? bill_billingDate r | None => true end = true
               <-> (forall d, f_startDate f = Some d -> d <= bill_billingDate r)).
  { destruct (f_startDate f) as [d|].
    - rewrite Z.leb_le. split; [intros H q Hq; inversion Hq; subst; exact H|auto].
    - split; [intros _ q Hq; discriminate|reflexivity]. }
  assert (D2 : match f_endDate f with
               | Some d => bill_billingDate r <=? d | None => true end = true
               <-> (forall d, f_endDate f = Some d -> bill_billingDate r <= d)).
  { destruct (f_endDate f) as [d|].
    - rewrite Z.leb_le. split; [intros H q Hq; inversion Hq; subst; exact H|auto].
    - split; [intros _ q Hq; discriminate|reflexivity]. }
  rewrite D1, D2. tauto.
Qed.

Lemma filter_all {A : Type} (f : A -> bool) (l : list A) :
  (forall x, f x = true) -> filter f l = l.
Proof.
  intro H. induction l as [|y tl IH]; simpl; [reflexivity|].
  rewrite H, IH. reflexivity.
Qed.

(** X20. [getBillingRecords] returns, ordered by billing date descending,
    exactly the records that satisfy every filter that was supplied: the
    patient, the service, a billing date not before [startDate] and not
    after [endDate]. A patient or service id of 0 counts as not supplied,
    and a filter object without any usable field, like no filter object at
    all, returns every record. *)
Theorem billing_records_filtered (table : list BillingRecord)
  (filters : option BillingFilters) :
  let result := getBillingRecords table filters in
  Sorted (fun a b => bill_billingDate a >= bill_billingDate b) result
  /\ (filters = None -> Permutation table result)
  /\ (forall f, filters = Some f ->
        Permutation (filter (billingConditions f) table) result
        /\ (forall r, In r result <->
              In r table
              /\ (forall p, f_patientId f = Some p -> p <> 0 -> bill_patientId r = p)
              /\ (forall s, f_serviceId f = Some s -> s <> 0 -> bill_serviceId r = s)
              /\ (forall d, f_startDate f = Some d -> d <= bill_billingDate r)
              /\ (forall d, f_endDate f = Some d -> bill_billingDate r <= d))
        /\ (noBillingCondition f = true -> Permutation table result)).
Proof.
  intro result.
  assert (All : forall f, noBillingCondition f = true ->
                          forall r, billingConditions f r = true).
  { intros f H r. unfold noBillingCondition in H.
    rewrite !andb_true_iff, !negb_true_iff in H.
    destruct H as [[[Hp Hs] Hst] Hen].
    unfold billingConditions. rewrite Hp, Hs.
    destruct (f_startDate f); [discriminate|].
    destruct (f_endDate f); [discriminate|]. reflexivity. }
  assert (P : forall f, filters = Some f ->
                        Permutation (filter (billingConditions f) table) result).
  { intros f ->. unfold result, getBillingRecords.
    destruct (noBillingCondition f) eqn:N.
    - rewrite (filter_all _ _ (All f N)). apply orderBy_perm.
    - apply orderBy_perm. }
  split; [|split].
  - unfold result, getBillingRecords.
    destruct filters as [f|]; [destruct (noBillingCondition f)|];
      apply orderBy_desc_sorted.
  - intros ->. apply orderBy_perm.
  - intros f E. split; [exact (P f E)|split].
    + intro r. rewrite <- billingConditions_spec, <- filter_In.
      split; intro H.
      * eapply Permutation_in; [apply Permutation_sym, (P f E)|exact H].
      * eapply Permutation_in; [apply (P f E)|exact H].
    + intro N. rewrite <- (filter_all _ table (All f N)) at 1. exact (P f E).
Qed.

Lemma billing_records_filtered_witness :
  let r1 := mkBillingRecord 1 1 1 1 "50.00" 100 None None None None None in
  let r2 := mkBillingRecord 2 2 2 1 "70.00" 200 None None None None None in
  getBillingRecords [r1; r2] (Some (mkBillingFilters (Some 0) None None None))
  = [r2; r1]
  /\ Permutation [r1; r2]
       (getBillingRecords [r1; r2]
          (Some (mkBillingFilters (Some 0) None None None))).
Proof.
  intros r1 r2. split; [reflexivity|].
  destruct (billing_records_filtered [r1; r2]
              (Some (mkBillingFilters (Some 0) None None None)))
    as [_ [_ H]].
  destruct (H _ eq_refl) as [_ [_ N]].
  apply N. reflexivity.
Defined.

(** ** Counters of the reports page *)

Lemma status_cases (a : Appointment) :
  (if String.eqb (status a) "scheduled" then 1 else 0)
  + (if String.eqb (status a) "completed" then 1 else 0)
  + (if String.eqb (status a) "cancelled" then 1 else 0)
  + (if String.eqb (status a) "no_show" then 1 else 0) <= 1
  /\ ((if String.eqb (status a) "scheduled" then 1 else 0)
      + (if String.eqb (status a) "completed" then 1 else 0)
      + (if String.eqb (status a) "cancelled" then 1 else 0)
      + (if String.eqb (status a) "no_show" then 1 else 0) = 1
      <-> knownStatus a).
Proof.
  unfold knownStatus, isScheduled, isTerminal.
  destruct (String.eqb_spec (status a) "scheduled") as [E1|N1];
  destruct (String.eqb_spec (status a) "completed") as [E2|N2];
  destruct (String.eqb_spec (status a) "cancelled") as [E3|N3];
  destruct (String.eqb_spec (status a) "no_show") as [E4|N4];
  try congruence; cbv iota;
  (split; [lia|split; [intro H; try lia; tauto|intro H; try lia; tauto]]).
Qed.

Lemma countStatus_cons s a l :
  Z.of_nat (countStatus s (a :: l))
  = (if String.eqb (status a) s then 1 else 0) + Z.of_nat (countStatus s l).
Proof.
  unfold countStatus. cbn [filter].
  destruct (String.eqb (status a) s).
  - change (List.length (a :: filter (fun apt => String.eqb (status apt) s) l))
      with (S (List.length (filter (fun apt => String.eqb (status apt) s) l))).
    rewrite Nat2Z.inj_succ. lia.
  - lia.
Qed.

(** X21. The four status counters of the reports page count disjoint sets
    of appointments: together they never exceed the total, and they add up
    to the total exactly when every appointment carries one of the four
    statuses [scheduled], [completed], [cancelled], [no_show]. *)
Theorem report_counters_partition (l : list Appointment) :
  (scheduledAppointments l + completedAppointments l
   + cancelledAppointments l + noShowAppointments l <= totalAppointments l)%nat
  /\ ((scheduledAppointments l + completedAppointments l
       + cancelledAppointments l + noShowAppointments l = totalAppointments l)%nat
      <-> Forall knownStatus l).
Proof.
  unfold scheduledAppointments, completedAppointments, cancelledAppointments,
    noShowAppointments, totalAppointments.
  assert (Z : Z.of_nat (countStatus "scheduled" l) + Z.of_nat (countStatus "completed" l)
              + Z.of_nat (countStatus "cancelled" l) + Z.of_nat (countStatus "no_show" l)
              <= Z.of_nat (List.length l)
              /\ (Z.of_nat (countStatus "scheduled" l)
                  + Z.of_nat (countStatus "completed" l)
                  + Z.of_nat (countStatus "cancelled" l)
                  + Z.of_nat (countStatus "no_show" l) = Z.of_nat (List.length l)
                  <-> Forall knownStatus l)).
  { induction l as [|a tl [IH1 IH2]].
    - split; [simpl; lia|]. split; [constructor|reflexivity].
    - rewrite !countStatus_cons. change (List.length (a :: tl)) with (S (List.length tl)).
      rewrite Nat2Z.inj_succ.
      destruct (status_cases a) as [C1 C2].
      split; [lia|]. split.
      + intro H. constructor; [apply C2; lia|apply IH2; lia].
      + intro H. inversion H as [|? ? Ha Htl]; subst.
        apply C2 in Ha. apply IH2 in Htl. lia. }
  destruct Z as [Z1 Z2]. split; [lia|].
  rewrite <- Z2. lia.
Qed.

Lemma report_counters_partition_witness :
  let l := [newAppointment 0 1 (booking 1 1 10 20);
            setStatus (fun _ => "rescheduled"%string)
                      (newAppointment 0 2 (booking 2 2 10 20))] in
  (scheduledAppointments l + completedAppointments l
   + cancelledAppointments l + noShowAppointments l = 1)%nat
  /\ ~ Forall knownStatus l.
Proof.
  intro l. split; [reflexivity|].
  intro H. apply (proj2 (report_counters_partition l)) in H. discriminate.
Defined.

(** ** Order of two bookings *)

Lemma conflictsWith_sym now1 now2 i1 i2 (b1 b2 : InsertAppointment) :
  conflictsWith (ins_staffId b2) (ins_patientId b2) (ins_startTime b2)
                (ins_endTime b2) None (newAppointment now1 i1 b1)
  = conflictsWith (ins_staffId b1) (ins_patientId b1) (ins_startTime b1)
                  (ins_endTime b1) None (newAppointment now2 i2 b2).
Proof.
  unfold conflictsWith. simpl. rewrite !andb_true_r.
  rewrite (Z.eqb_sym (ins_staffId b1)), (Z.eqb_sym (ins_patientId b1)).
  rewrite !Z.gtb_ltb. f_equal. f_equal. apply andb_comm.
Qed.

Lemma checkAppointmentConflicts_after_post now body db a db' s p st en :
  postAppointment now body db = (Created a, db') ->
  checkAppointmentConflicts db' s p st en None
  = checkAppointmentConflicts db s p st en None
    || conflictsWith s p st en None a.
Proof.
  intro H. destruct (postAppointment_created _ _ _ _ _ H) as [_ [Ed _]].
  rewrite !checkAppointmentConflicts_existsb, Ed. simpl.
  rewrite existsb_app. simpl. rewrite orb_false_r. reflexivity.
Qed.

(** X22. Compatibility of two bookings does not depend on their order:
    when each of two requests would be answered 201 on the current
    database, the second is refused with 409 after the first exactly when
    the first is refused with 409 after the second. *)
Theorem booking_order_is_irrelevant (now : Timestamp)
  (b1 b2 : InsertAppointment) (db db1 db2 : Db) (a1 a2 : Appointment) :
  postAppointment now b1 db = (Created a1, db1) ->
  postAppointment now b2 db = (Created a2, db2) ->
  (fst (postAppointment now b2 db1) = Conflict
   <-> fst (postAppointment now b1 db2) = Conflict).
Proof.
  intros H1 H2.
  destruct (postAppointment_created _ _ _ _ _ H1) as [E1 [_ [C1 _]]].
  destruct (postAppointment_created _ _ _ _ _ H2) as [E2 [_ [C2 _]]].
  assert (K : forall b d, fst (postAppointment now b d) = Conflict
                          <-> checkAppointmentConflicts d (ins_staffId b)
                                (ins_patientId b) (ins_startTime b)
                                (ins_endTime b) None = true).
  { intros b d. unfold postAppointment, createAppointment.
    destruct (checkAppointmentConflicts d _ _ _ _ _); simpl; [tauto|].
    destruct (referencesOk d _); simpl; split; discriminate. }
  rewrite !K.
  rewrite (checkAppointmentConflicts_after_post _ _ _ _ _ _ _ _ _ H1), C2.
  rewrite (checkAppointmentConflicts_after_post _ _ _ _ _ _ _ _ _ H2), C1.
  rewrite E1, E2. simpl orb.
  rewrite (conflictsWith_sym now now (appointments_id_seq db)
             (appointments_id_seq db) b1 b2).
  tauto.
Qed.

Lemma booking_order_is_irrelevant_witness :
  fst (postAppointment 0 (booking 1 2 15 25)
         (snd (postAppointment 0 (booking 1 1 10 20) clinic))) = Conflict
  /\ fst (postAppointment 0 (booking 1 1 10 20)
            (snd (postAppointment 0 (booking 1 2 15 25) clinic))) = Conflict.
Proof.
  split; [reflexivity|].
  apply (booking_order_is_irrelevant 0 (booking 1 1 10 20) (booking 1 2 15 25)
           clinic _ _ _ _ eq_refl eq_refl).
  reflexivity.
Defined.

(** ** Listing all appointments *)

(** X23. Without a complete range, a staff id or a patient id,
    [GET /api/appointments] returns every stored appointment, ordered by
    start time descending. The parameters have a fixed precedence: with a
    complete range the staff and patient ids are ignored, and with a staff
    id (and no complete range) the patient id is ignored. *)
Theorem list_all_appointments (db : Db) (from to s p : option Z) :
  (from = None \/ to = None ->
   Permutation (appointments db) (getAppointments (mkQuery from to None None) db)
   /\ Sorted (fun a b => startTime a >= startTime b)
             (getAppointments (mkQuery from to None None) db))
  /\ (forall f t, getAppointments (mkQuery (Some f) (Some t) s p) db
                  = getAppointments (mkQuery (Some f) (Some t) None None) db)
  /\ (forall i, from = None \/ to = None ->
                getAppointments (mkQuery from to (Some i) p) db
                = getAppointments (mkQuery from to (Some i) None) db).
Proof.
  split; [|split].
  - intro H.
    assert (E : getAppointments (mkQuery from to None None) db
                = getAllAppointments db).
    { unfold getAppointments. simpl.
      destruct H as [-> | ->]; [reflexivity|destruct from; reflexivity]. }
    rewrite E. unfold getAllAppointments. split.
    + apply orderBy_perm.
    + apply orderBy_desc_sorted.
  - reflexivity.
  - intros i H. unfold getAppointments. simpl.
    destruct H as [-> | ->]; [reflexivity|destruct from; reflexivity].
Qed.

Lemma list_all_appointments_witness :
  let db := snd (run [POST_appointments (sent (booking 1 1 5 15));
                      POST_appointments (sent (booking 2 2 30 40))] clinic) in
  map id (getAppointments (mkQuery (Some 0) None None None) db) = [2; 1]
  /\ Permutation (appointments db)
       (getAppointments (mkQuery (Some 0) None None None) db).
Proof.
  intro db. split; [reflexivity|].
  apply (proj1 (list_all_appointments db (Some 0) None None None)).
  right. reflexivity.
Defined.

(** ** One appointment per staff member *)

(** X24. Because the staff test of the conflict query stands alone, the
    handlers never let a staff member hold two appointments: in every
    state reached by handling requests one at a time, two distinct stored
    appointments have different staff members, whatever their intervals
    and statuses. *)
Theorem one_appointment_per_staff (db : Db) (a b : Appointment) :
  Reachable db ->
  In a (appointments db) -> In b (appointments db) -> id a <> id b ->
  staffId a <> staffId b.
Proof.
  intros R Ha Hb Hne.
  destruct (Reachable_Inv db R) as [_ _ _ _ Hstaff _ _].
  exact (Hstaff a b Ha Hb Hne).
Qed.

Lemma one_appointment_per_staff_witness :
  let db := snd (run [POST_appointments (sent (booking 1 1 10 20));
                      POST_appointments (sent (booking 2 1 500 600));
                      POST_appointments (sent (booking 2 2 10 20));
                      PUT_appointments 2 (changeStaff 1)] clinic) in
  map staffId (appointments db) = [1; 2]
  /\ staffId (newAppointment 0 1 (booking 1 1 10 20))
     <> staffId (newAppointment 0 2 (booking 2 2 10 20)).
Proof.
  intro db. split; [reflexivity|].
  apply (one_appointment_per_staff db).
  - apply Reachable_run. exact Reachable_clinic.
  - simpl. left. reflexivity.
  - simpl. right. left. reflexivity.
  - simpl. lia.
Defined.
